(** * stock_predictor.py: RSI indicator and strong-buy screener

    A shallow embedding of [calculate_rsi], [evaluate_stock] and the
    result-collecting part of [main], together with the properties of the
    specification that concern them.

    Numbers.  The program computes on pandas/NumPy [float64] columns.  The
    embedding keeps every IEEE-754 special value the program can meet
    (NaN, the two infinities, the two zeros) and their arithmetic, and
    represents a finite non-zero value by the exact rational it denotes:
    rounding of finite results to 53 bits, overflow and underflow are not
    modelled.  A property that needs a sum or a difference to be exact is
    therefore stated for closes that are whole numbers of moderate size,
    on which binary64 computes the same differences and window sums. *)

From Stdlib Require Import ZArith QArith Qround Qreduction Lqa Lia Bool.
From Stdlib Require Import String Ascii.
From stdpp Require Import base list strings pretty gmap.

Local Open Scope Z_scope.

(* ===================================================================== *)
(** ** float64 values *)
(* ===================================================================== *)

(** [Inf s] and [Zero s] carry the sign bit ([true] is negative).
    [Finite q] is meant for [q] different from zero; no operation below
    produces [Finite 0], and all of them treat it as a zero. *)
Inductive float64 : Type :=
  | NaN
  | Inf (s : bool)
  | Zero (s : bool)
  | Finite (q : Q).

Module F.

Definition Qltb (p q : Q) : bool := negb (Qle_bool q p).
Definition Qis0 (q : Q) : bool := (Qnum q =? 0)%Z.
Definition Qisneg (q : Q) : bool := (Qnum q <? 0)%Z.

(** The float denoted by a rational: zero is [+0.0]. *)
Definition of_Q (q : Q) : float64 :=
  if Qis0 q then Zero false else Finite (Qred q).

Definition of_Z (z : Z) : float64 := of_Q (inject_Z z).
Definition of_nat (n : nat) : float64 := of_Z (Z.of_nat n).

Definition is_nan (x : float64) : bool :=
  match x with NaN => true | _ => false end.

Definition is_inf (x : float64) : bool :=
  match x with Inf _ => true | _ => false end.

Definition is_finite (x : float64) : bool :=
  match x with Zero _ | Finite _ => true | _ => false end.

Definition is_zero (x : float64) : bool :=
  match x with Zero _ => true | Finite q => Qis0 q | _ => false end.

(** Sign bit. *)
Definition sign (x : float64) : bool :=
  match x with
  | NaN => false
  | Inf s | Zero s => s
  | Finite q => Qisneg q
  end.

(** Rational value of a zero or finite float. *)
Definition qval (x : float64) : Q :=
  match x with Finite q => q | _ => 0%Q end.

Definition opp (x : float64) : float64 :=
  match x with
  | NaN => NaN
  | Inf s => Inf (negb s)
  | Zero s => Zero (negb s)
  | Finite q => if Qis0 q then Zero true else Finite (Qopp q)
  end.

(** Round-to-nearest addition: [inf + -inf] is NaN, [x + -x] is [+0.0],
    and a sum of two zeros is negative only when both are. *)
Definition add (x y : float64) : float64 :=
  match x, y with
  | NaN, _ | _, NaN => NaN
  | Inf a, Inf b => if Bool.eqb a b then Inf a else NaN
  | Inf a, _ => Inf a
  | _, Inf b => Inf b
  | Zero a, Zero b => Zero (a && b)
  | Zero _, Finite q => of_Q q
  | Finite p, Zero _ => of_Q p
  | Finite p, Finite q => of_Q (p + q)
  end.

Definition sub (x y : float64) : float64 := add x (opp y).

(** Division: [0/0] and [inf/inf] are NaN, [x/0] is an infinity, and the
    sign of the result is the exclusive or of the signs. *)
Definition div (x y : float64) : float64 :=
  match x, y with
  | NaN, _ | _, NaN => NaN
  | Inf _, Inf _ => NaN
  | Inf a, _ => Inf (xorb a (sign y))
  | _, Inf b => Zero (xorb (sign x) b)
  | _, _ =>
      if is_zero y then
        if is_zero x then NaN else Inf (xorb (sign x) (sign y))
      else
        if is_zero x then Zero (xorb (sign x) (sign y))
        else Finite (Qred (qval x / qval y))
  end.

(** [x > y]; false as soon as one side is NaN. *)
Definition gt (x y : float64) : bool :=
  match x, y with
  | NaN, _ | _, NaN => false
  | Inf a, Inf b => negb a && b
  | Inf a, _ => negb a
  | _, Inf b => b
  | _, _ => Qltb (qval y) (qval x)
  end.

Definition lt (x y : float64) : bool := gt y x.

(** [x == y] on floats: NaN equals nothing, the two zeros are equal. *)
Definition eqb (x y : float64) : bool :=
  match x, y with
  | NaN, _ | _, NaN => false
  | Inf a, Inf b => Bool.eqb a b
  | Inf _, _ | _, Inf _ => false
  | _, _ => Qeq_bool (qval x) (qval y)
  end.

(** [x <= y]. *)
Definition le (x y : float64) : bool := gt y x || eqb x y.

(** Nearest integer, ties to even. *)
Definition round_half_even (q : Q) : Z :=
  let f := Qfloor q in
  match (q - inject_Z f ?= 1 # 2)%Q with
  | Lt => f
  | Gt => f + 1
  | Eq => if Z.even f then f else f + 1
  end.

(** Python's [round(x, ndigits)] on a float: NaN and the infinities are
    returned unchanged, a result that rounds to zero keeps the sign. *)
Definition round (x : float64) (ndigits : nat) : float64 :=
  match x with
  | Finite q =>
      let scale := Z.pow 10 (Z.of_nat ndigits) in
      let n := round_half_even (q * inject_Z scale) in
      if (n =? 0)%Z then Zero (Qisneg q)
      else Finite (Qred (inject_Z n / inject_Z scale))
  | _ => x
  end.

End F.

(* ===================================================================== *)
(** ** pandas Series operations used by the program *)
(* ===================================================================== *)

Abbreviation Series := (list float64).

(** [s.diff()]: the first entry is NaN, entry [i] is [s[i] - s[i-1]]. *)
Fixpoint diff_from (prev : float64) (s : Series) : Series :=
  match s with
  | [] => []
  | x :: r => F.sub x prev :: diff_from x r
  end.

Definition diff (s : Series) : Series :=
  match s with
  | [] => []
  | x :: r => NaN :: diff_from x r
  end.

(** [s.where(s > 0, 0)] and [s.where(s < 0, 0)]: an entry is kept where the
    comparison is true and replaced by [0] elsewhere, NaN entries
    included since they compare false. *)
Definition where_gt0 (s : Series) : Series :=
  (fun d => if F.gt d (Zero false) then d else Zero false) <$> s.

Definition where_lt0 (s : Series) : Series :=
  (fun d => if F.lt d (Zero false) then d else Zero false) <$> s.

(** Sum of a window, accumulated from [0.0]. *)
Definition fsum (s : Series) : float64 := fold_left F.add s (Zero false).

(** The [window] entries ending at index [i]. *)
Definition window_at (window i : nat) (s : Series) : Series :=
  take window (drop (i + 1 - window) s).

(** [s.rolling(window=window).mean()], with pandas' default
    [min_periods = window].  pandas replaces infinite entries by NaN
    before rolling and counts the entries of the window that are not NaN:
    the result is NaN while fewer than [window] entries are available or
    when the window holds a NaN or an infinity, otherwise the mean of the
    window. *)
Definition rolling_mean_at (window : nat) (s : Series) (i : nat) : float64 :=
  if (i + 1 <? window)%nat then NaN
  else
    let w := window_at window i s in
    if existsb (fun x => F.is_nan x || F.is_inf x) w then NaN
    else F.div (fsum w) (F.of_nat window).

Definition rolling_mean (window : nat) (s : Series) : Series :=
  rolling_mean_at window s <$> seq 0 (length s).

(** Element-wise binary operation on two aligned Series. *)
Definition series_map2 (f : float64 -> float64 -> float64) (a b : Series) : Series :=
  zip_with f a b.

(* ===================================================================== *)
(** ** The data frame and [calculate_rsi] *)
(* ===================================================================== *)

(** One daily bar; only the two columns the program reads. *)
Record Bar : Type := mkBar { Close : float64; Volume : float64 }.

Abbreviation DataFrame := (list Bar).

Definition close_col (data : DataFrame) : Series := Close <$> data.
Definition volume_col (data : DataFrame) : Series := Volume <$> data.

Definition hundred : float64 := Finite 100.
Definition one : float64 := Finite 1.

Definition delta_series (data : DataFrame) : Series := diff (close_col data).

(** [gain = delta.where(delta > 0, 0).rolling(window=window).mean()] *)
Definition gain_series (data : DataFrame) (window : nat) : Series :=
  rolling_mean window (where_gt0 (delta_series data)).

(** [loss = -delta.where(delta < 0, 0).rolling(window=window).mean()]:
    the unary minus applies to the rolling mean. *)
Definition loss_series (data : DataFrame) (window : nat) : Series :=
  F.opp <$> rolling_mean window (where_lt0 (delta_series data)).

(** [100 - (100 / (1 + rs))] *)
Definition rsi_of_rs (rs : float64) : float64 :=
  F.sub hundred (F.div hundred (F.add one rs)).

Definition calculate_rsi (data : DataFrame) (window : nat) : Series :=
  let gain := gain_series data window in
  let loss := loss_series data window in
  let rs := series_map2 F.div gain loss in
  rsi_of_rs <$> rs.

(* ===================================================================== *)
(** ** Exceptions *)
(* ===================================================================== *)

(** A computation that returns a value or raises an instance of Python's
    [Exception] whose [str()] is [msg].  The exceptions outside
    [Exception] ([KeyboardInterrupt], [SystemExit]), which
    [except Exception] does not catch, are the matter of [call] below. *)
Inductive outcome (A : Type) : Type :=
  | Ok (a : A)
  | Raise (msg : string).

Arguments Ok {A} a.
Arguments Raise {A} msg.

Definition bind {A B : Type} (c : outcome A) (k : A -> outcome B) : outcome B :=
  match c with
  | Ok a => k a
  | Raise msg => Raise msg
  end.

Notation "'do' x <- c ; k" := (bind c (fun x => k))
  (at level 10, x name, c at level 100, k at level 200).

(** [try: body  except Exception as e: handler(str(e))] *)
Definition try_except {A : Type} (body : outcome A) (handler : string -> A) : A :=
  match body with
  | Ok a => a
  | Raise msg => handler msg
  end.

(** [s.iloc[i]] with Python's negative positions; out of range raises
    [IndexError]. *)
Definition iloc {A : Type} (s : list A) (i : Z) : outcome A :=
  let n := Z.of_nat (length s) in
  let k := if i <? 0 then n + i else i in
  if (k <? 0) || (n <=? k) then
    Raise "single positional indexer is out-of-bounds"
  else
    match s !! Z.to_nat k with
    | Some x => Ok x
    | None => Raise "single positional indexer is out-of-bounds"
    end.

(* ===================================================================== *)
(** ** [evaluate_stock] *)
(* ===================================================================== *)

(** The sixth component of the returned tuple.  The program holds it as a
    string, [verdict_text]; the error text of a caught exception is kept
    in [SkippedFetchError]. *)
Inductive Verdict : Type :=
  | StrongBuy
  | NotStrongBuy
  | SkippedInsufficientData
  | SkippedFetchError (e : string).

Definition verdict_text (v : Verdict) : string :=
  match v with
  | StrongBuy => "Strong Buy"
  | NotStrongBuy => "Not a strong buy"
  | SkippedInsufficientData => "Skipped – insufficient data"
  | SkippedFetchError e => "Skipped – error fetching data (" +:+ e +:+ ")"
  end.

(** The tuple [(symbol, price, rsi, price_up, volume_up, verdict)];
    [None] is Python's [None]. *)
Record EvalResult : Type := mkResult {
  res_symbol : string;
  res_price : option float64;
  res_rsi : option float64;
  res_price_up : option bool;
  res_volume_up : option bool;
  res_verdict : Verdict
}.

Definition skipped (symbol : string) (v : Verdict) : EvalResult :=
  mkResult symbol None None None None v.

Section Evaluator.

(** [yf.download(symbol, start=start_date, end=end_date)] for the dates
    of the run: the provider is outside the repository. *)
Variable yf_download : string -> outcome DataFrame.

Definition evaluate_body (symbol : string) (rsi_threshold : float64)
  : outcome EvalResult :=
  do stock_data <- yf_download symbol ;
  if (length stock_data =? 0)%nat || (length stock_data <? 15)%nat then
    Ok (skipped symbol SkippedInsufficientData)
  else
    let rsi_col := calculate_rsi stock_data 14 in
    do rsi_today <- iloc rsi_col (-1) ;
    do price_today <- iloc (close_col stock_data) (-1) ;
    do price_yesterday <- iloc (close_col stock_data) (-2) ;
    do volume_today <- iloc (volume_col stock_data) (-1) ;
    do volume_yesterday <- iloc (volume_col stock_data) (-2) ;
    let price_up := F.gt price_today price_yesterday in
    let volume_up := F.gt volume_today volume_yesterday in
    let verdict :=
      if F.gt rsi_today rsi_threshold && price_up && volume_up
      then StrongBuy else NotStrongBuy in
    Ok (mkResult symbol (Some (F.round price_today 2))
          (Some (F.round rsi_today 2)) (Some price_up) (Some volume_up)
          verdict).

Definition evaluate_stock (symbol : string) (rsi_threshold : float64)
  : EvalResult :=
  try_except (evaluate_body symbol rsi_threshold)
    (fun e => skipped symbol (SkippedFetchError e)).

(* =================================================================== *)
(** ** The loop of [main] and the CSV export *)
(* =================================================================== *)

(** What the expander of one symbol shows. *)
Inductive Panel : Type :=
  | Warning (text : string)
  | Analysis (price rsi : option float64) (price_up volume_up : option bool)
      (verdict : string).

(** One dictionary appended to [strong_buy_data]. *)
Record Row : Type := mkRow {
  Symbol : string;
  Price : option float64;
  RSI : option float64
}.

Definition starts_with_Skipped (s : string) : bool :=
  String.prefix "Skipped" s.

(** One iteration of [for symbol in symbols]. *)
Definition main_step (rsi_threshold : float64)
    (st : list (string * Panel) * list Row) (symbol : string)
  : list (string * Panel) * list Row :=
  let '(panels, strong_buy_data) := st in
  let r := evaluate_stock symbol rsi_threshold in
  let verdict := verdict_text (res_verdict r) in
  if starts_with_Skipped verdict then
    (panels ++ [(symbol, Warning verdict)], strong_buy_data)
  else
    let panel := Analysis (res_price r) (res_rsi r) (res_price_up r)
                   (res_volume_up r) verdict in
    if String.eqb verdict "Strong Buy" then
      (panels ++ [(symbol, panel)],
       strong_buy_data ++ [mkRow symbol (res_price r) (res_rsi r)])
    else
      (panels ++ [(symbol, panel)], strong_buy_data).

Definition main_loop (symbols : list string) (rsi_threshold : float64)
  : list (string * Panel) * list Row :=
  fold_left (main_step rsi_threshold) symbols ([], []).

(** How pandas writes a float cell; the text of a number is outside the
    repository. *)
Variable float_repr : float64 -> string.

Definition dquote : string := String "034"%char EmptyString.
Definition newline : string := String "010"%char EmptyString.

Fixpoint mentions (c : ascii) (s : string) : bool :=
  match s with
  | EmptyString => false
  | String d r => Ascii.eqb c d || mentions c r
  end.

Fixpoint double_quotes (s : string) : string :=
  match s with
  | EmptyString => EmptyString
  | String d r =>
      if Ascii.eqb d "034"%char
      then String d (String d (double_quotes r))
      else String d (double_quotes r)
  end.

(** A string cell under the [csv] module's minimal quoting, with the
    line terminator [\n] that pandas passes: the cell is quoted, and its
    quotes doubled, when it holds the delimiter, the quote character or a
    line feed. *)
Definition csv_str (s : string) : string :=
  if mentions ","%char s || mentions "034"%char s || mentions "010"%char s
  then dquote +:+ double_quotes s +:+ dquote
  else s.

(** A float cell; a missing value is written as the empty string. *)
Definition csv_num (x : option float64) : string :=
  match x with
  | Some v => float_repr v
  | None => EmptyString
  end.

Definition csv_header : string := "Symbol,Price,RSI".

Definition csv_row (r : Row) : string :=
  csv_str (Symbol r) +:+ "," +:+ csv_num (Price r) +:+ "," +:+ csv_num (RSI r).

(** The lines of [summary_df.to_csv(csv_buffer, index=False)]. *)
Definition csv_lines (rows : list Row) : list string :=
  csv_header :: (csv_row <$> rows).

Definition to_csv (rows : list Row) : string :=
  fold_right (fun line rest => line +:+ newline +:+ rest) EmptyString
    (csv_lines rows).

(** [csv_contents], produced only under [if strong_buy_data:]. *)
Definition main_csv (symbols : list string) (rsi_threshold : float64)
  : option string :=
  match snd (main_loop symbols rsi_threshold) with
  | [] => None
  | rows => Some (to_csv rows)
  end.

End Evaluator.

(* ===================================================================== *)
(** ** Exceptions that [except Exception] does not catch *)
(* ===================================================================== *)

(** What a Python call does: it returns, it raises an instance of
    [Exception], or it raises one of the other [BaseException]s
    ([KeyboardInterrupt], [SystemExit], [GeneratorExit]), named by
    [name]. *)
Inductive call (A : Type) : Type :=
  | Returns (a : A)
  | Raises (msg : string)
  | Exits (name : string).

Arguments Returns {A} a.
Arguments Raises {A} msg.
Arguments Exits {A} name.

Definition call_bind {A B : Type} (c : call A) (k : A -> call B) : call B :=
  match c with
  | Returns a => k a
  | Raises msg => Raises msg
  | Exits name => Exits name
  end.

Notation "'run' x <- c ; k" := (call_bind c (fun x => k))
  (at level 10, x name, c at level 100, k at level 200).

Definition of_outcome {A : Type} (o : outcome A) : call A :=
  match o with
  | Ok a => Returns a
  | Raise msg => Raises msg
  end.

(** [try: body  except Exception as e: handler(str(e))]: an instance of
    [Exception] is handled, anything else goes through. *)
Definition try_except_Exception {A : Type} (body : call A)
    (handler : string -> A) : call A :=
  match body with
  | Returns a => Returns a
  | Raises msg => Returns (handler msg)
  | Exits name => Exits name
  end.

(** The body of the loop of [main] once [evaluate_stock] has returned
    [r]. *)
Definition record_result (st : list (string * Panel) * list Row)
    (symbol : string) (r : EvalResult)
  : list (string * Panel) * list Row :=
  let '(panels, strong_buy_data) := st in
  let verdict := verdict_text (res_verdict r) in
  if starts_with_Skipped verdict then
    (panels ++ [(symbol, Warning verdict)], strong_buy_data)
  else
    let panel := Analysis (res_price r) (res_rsi r) (res_price_up r)
                   (res_volume_up r) verdict in
    if String.eqb verdict "Strong Buy" then
      (panels ++ [(symbol, panel)],
       strong_buy_data ++ [mkRow symbol (res_price r) (res_rsi r)])
    else
      (panels ++ [(symbol, panel)], strong_buy_data).

Section Interruptible.

(** A provider that may also leave through an exception outside
    [Exception]. *)
Variable yf_download : string -> call DataFrame.

Definition evaluate_body_call (symbol : string) (rsi_threshold : float64)
  : call EvalResult :=
  run stock_data <- yf_download symbol ;
  if (length stock_data =? 0)%nat || (length stock_data <? 15)%nat then
    Returns (skipped symbol SkippedInsufficientData)
  else
    let rsi_col := calculate_rsi stock_data 14 in
    run rsi_today <- of_outcome (iloc rsi_col (-1)) ;
    run price_today <- of_outcome (iloc (close_col stock_data) (-1)) ;
    run price_yesterday <- of_outcome (iloc (close_col stock_data) (-2)) ;
    run volume_today <- of_outcome (iloc (volume_col stock_data) (-1)) ;
    run volume_yesterday <- of_outcome (iloc (volume_col stock_data) (-2)) ;
    let price_up := F.gt price_today price_yesterday in
    let volume_up := F.gt volume_today volume_yesterday in
    let verdict :=
      if F.gt rsi_today rsi_threshold && price_up && volume_up
      then StrongBuy else NotStrongBuy in
    Returns (mkResult symbol (Some (F.round price_today 2))
               (Some (F.round rsi_today 2)) (Some price_up) (Some volume_up)
               verdict).

Definition evaluate_stock_call (symbol : string) (rsi_threshold : float64)
  : call EvalResult :=
  try_except_Exception (evaluate_body_call symbol rsi_threshold)
    (fun e => skipped symbol (SkippedFetchError e)).

(** [for symbol in symbols: ...]: an exception that leaves
    [evaluate_stock] leaves the loop, and [main]. *)
Fixpoint main_loop_call_from (symbols : list string) (rsi_threshold : float64)
    (st : list (string * Panel) * list Row)
  : call (list (string * Panel) * list Row) :=
  match symbols with
  | [] => Returns st
  | symbol :: rest =>
      run r <- evaluate_stock_call symbol rsi_threshold ;
      main_loop_call_from rest rsi_threshold (record_result st symbol r)
  end.

Definition main_loop_call (symbols : list string) (rsi_threshold : float64)
  : call (list (string * Panel) * list Row) :=
  main_loop_call_from symbols rsi_threshold ([], []).

End Interruptible.

(* ===================================================================== *)
(** ** Vocabulary of the properties *)
(* ===================================================================== *)

(** Entry [i] of the two averages. *)
Definition gain_at (data : DataFrame) (w i : nat) : float64 :=
  rolling_mean_at w (where_gt0 (delta_series data)) i.

Definition loss_at (data : DataFrame) (w i : nat) : float64 :=
  F.opp (rolling_mean_at w (where_lt0 (delta_series data)) i).

(** A flat series: every day-over-day delta is a zero. *)
Definition flat (s : Series) : bool := forallb F.is_zero (tail (diff s)).

(** A close that is a whole number of magnitude at most [2^31].  On such
    closes binary64 computes every difference and every window sum
    without rounding, overflow or underflow. *)
Definition whole (x : float64) : bool :=
  match x with
  | Zero _ => true
  | Finite q => (Qden q =? 1)%positive && (Z.abs (Qnum q) <=? 2147483648)%Z
  | _ => false
  end.



(** What the expander shows for one result. *)
Definition panel_of (r : EvalResult) : Panel :=
  match res_verdict r with
  | StrongBuy | NotStrongBuy =>
      Analysis (res_price r) (res_rsi r) (res_price_up r) (res_volume_up r)
        (verdict_text (res_verdict r))
  | v => Warning (verdict_text v)
  end.

Definition is_strong_buy (r : EvalResult) : bool :=
  match res_verdict r with StrongBuy => true | _ => false end.

Definition row_of (r : EvalResult) : Row :=
  mkRow (res_symbol r) (res_price r) (res_rsi r).

(** A data frame with the given integer closes and volumes. *)
Definition frame_of (bars : list (Z * Z)) : DataFrame :=
  (fun b => mkBar (F.of_Z (fst b)) (F.of_Z (snd b))) <$> bars.

(** Fifteen bars, closes rising by one a day, volume rising on the last. *)
Definition rising15 : DataFrame :=
  frame_of [(1,1);(2,1);(3,1);(4,1);(5,1);(6,1);(7,1);(8,1);(9,1);(10,1);
            (11,1);(12,1);(13,1);(14,1);(15,2)].

(** Fifteen bars of a flat market. *)
Definition flat15 : DataFrame := frame_of (replicate 15 (3, 5)).

(** Fifteen bars whose fourteen deltas hold gains of 50001 and losses of
    49999 in total: the last RSI is 50.001. *)
Definition near50 : DataFrame :=
  frame_of [(100000,1);(50001,1);(99990,1);(99991,1);(99992,1);(99993,1);
            (99994,1);(99995,1);(99996,1);(99997,1);(99998,1);(99999,1);
            (100000,1);(100001,1);(100002,2)].

(** A stand-in for the text of a float cell, for concrete runs. *)
Definition plain_repr (x : float64) : string :=
  match x with
  | NaN => "nan"
  | Inf _ => "inf"
  | Zero _ => "0.0"
  | Finite _ => "number"
  end.

(** The text Python's [repr], which pandas uses for a float cell, gives
    for a float that is a whole number of hundredths, as every price and
    RSI of a result is after [round(x, 2)]: [100.0], [50.5], [55.25]. *)
Definition repr_2dp (x : float64) : string :=
  match x with
  | NaN => "nan"
  | Inf false => "inf"
  | Inf true => "-inf"
  | Zero false => "0.0"
  | Zero true => "-0.0"
  | Finite q =>
      let n := Qfloor (q * 100) in
      let whole_part := (Z.abs n / 100)%Z in
      let hundredths := (Z.abs n mod 100)%Z in
      (if (n <? 0)%Z then "-" else "")
      +:+ pretty whole_part +:+ "."
      +:+ (if (hundredths mod 10 =? 0)%Z then pretty (hundredths / 10)%Z
           else if (hundredths <? 10)%Z then "0" +:+ pretty hundredths
           else pretty hundredths)
  end.

(** A provider interrupted from the keyboard while it fetches [BAD]. *)
Definition interrupted_provider (symbol : string) : call DataFrame :=
  if String.eqb symbol "BAD" then Exits "KeyboardInterrupt" else Returns near50.

(** A provider that fails for the symbol [BAD] and returns the same
    fifteen bars for every other symbol. *)
Definition sample_provider (symbol : string) : outcome DataFrame :=
  if String.eqb symbol "BAD" then Raise "No data found" else Ok near50.

Module SignClasses.

(** *** Sign classes

    [nonneg z] holds of the zero with sign [z], of the positive finite
    values and of [+inf]; [nonpos] of [+0.0], the negative finite values
    and [-inf]; [pos] of the positive finite values and [+inf]. *)
Inductive nonneg (z : bool) : float64 -> Prop :=
  | nonneg_zero : nonneg z (Zero z)
  | nonneg_fin q : (0 < q)%Q -> nonneg z (Finite q)
  | nonneg_inf : nonneg z (Inf false).

Inductive nonpos : float64 -> Prop :=
  | nonpos_zero : nonpos (Zero false)
  | nonpos_fin q : (q < 0)%Q -> nonpos (Finite q)
  | nonpos_inf : nonpos (Inf true).

Inductive pos : float64 -> Prop :=
  | pos_fin q : (0 < q)%Q -> pos (Finite q)
  | pos_inf : pos (Inf false).

Create HintDb float.
#[export] Hint Constructors nonneg nonpos pos : float.

End SignClasses.

(* ===================================================================== *)
(** ** Facts about float64 arithmetic *)
(* ===================================================================== *)

Module FloatFacts.
Export SignClasses.

Lemma Qltb_lt (p q : Q) : F.Qltb p q = true <-> (p < q)%Q.
Proof.
  unfold F.Qltb. rewrite negb_true_iff, <- not_true_iff_false, Qle_bool_iff.
  split; [apply Qnot_le_lt | apply Qlt_not_le].
Qed.

Lemma Qltb_irrefl (q : Q) : F.Qltb q q = false.
Proof.
  apply not_true_iff_false. rewrite Qltb_lt. apply Qlt_irrefl.
Qed.

Lemma Qis0_eq (q : Q) : F.Qis0 q = true <-> (q == 0)%Q.
Proof.
  unfold F.Qis0, Qeq. rewrite Z.eqb_eq. simpl. lia.
Qed.

Lemma Qis0_pos (q : Q) : (0 < q)%Q -> F.Qis0 q = false.
Proof.
  intros H. apply not_true_iff_false. rewrite Qis0_eq. intros E.
  rewrite E in H. revert H. apply Qlt_irrefl.
Qed.

Lemma Qis0_neg (q : Q) : (q < 0)%Q -> F.Qis0 q = false.
Proof.
  intros H. apply not_true_iff_false. rewrite Qis0_eq. intros E.
  rewrite E in H. revert H. apply Qlt_irrefl.
Qed.

Lemma Qisneg_lt (q : Q) : F.Qisneg q = true <-> (q < 0)%Q.
Proof.
  unfold F.Qisneg, Qlt. rewrite Z.ltb_lt. simpl. lia.
Qed.

Lemma Qisneg_pos (q : Q) : (0 < q)%Q -> F.Qisneg q = false.
Proof.
  intros H. apply not_true_iff_false. rewrite Qisneg_lt. intros E.
  apply (Qlt_irrefl 0). eapply Qlt_trans; eassumption.
Qed.

Lemma of_Q_pos (q : Q) : (0 < q)%Q -> F.of_Q q = Finite (Qred q).
Proof. intros H. unfold F.of_Q. now rewrite Qis0_pos. Qed.

Lemma of_Q_neg (q : Q) : (q < 0)%Q -> F.of_Q q = Finite (Qred q).
Proof. intros H. unfold F.of_Q. now rewrite Qis0_neg. Qed.

Lemma Qred_pos (q : Q) : (0 < q)%Q -> (0 < Qred q)%Q.
Proof. intros H. now rewrite Qred_correct. Qed.

Lemma Qred_neg (q : Q) : (q < 0)%Q -> (Qred q < 0)%Q.
Proof. intros H. now rewrite Qred_correct. Qed.

(** The window length as a float. *)
Lemma of_nat_pos (n : nat) :
  (1 <= n)%nat -> exists q, F.of_nat n = Finite q /\ (0 < q)%Q.
Proof.
  intros H. exists (Qred (inject_Z (Z.of_nat n))).
  assert (0 < inject_Z (Z.of_nat n))%Q as Hp.
  { unfold Qlt. simpl. lia. }
  split; [now apply of_Q_pos | now apply Qred_pos].
Qed.

Lemma pos_nonneg z x : pos x -> nonneg z x.
Proof. destruct 1; auto with float. Qed.

Lemma pos_gt0 x : pos x <-> F.gt x (Zero false) = true.
Proof.
  split.
  - destruct 1; simpl; [now apply Qltb_lt | reflexivity].
  - destruct x as [|[]|s|q]; simpl; try discriminate.
    + intros _. constructor.
    + rewrite Qltb_lt. now constructor.
Qed.


Lemma nonneg_not_nan z x : nonneg z x -> F.is_nan x = false.
Proof. now destruct 1. Qed.

Lemma nonpos_not_nan x : nonpos x -> F.is_nan x = false.
Proof. now destruct 1. Qed.

Lemma keep_gt0_nonneg d :
  nonneg false (if F.gt d (Zero false) then d else Zero false).
Proof.
  destruct (F.gt d (Zero false)) eqn:E; [|constructor].
  apply pos_nonneg. now apply pos_gt0.
Qed.

Lemma keep_lt0_nonpos d :
  nonpos (if F.lt d (Zero false) then d else Zero false).
Proof.
  destruct (F.lt d (Zero false)) eqn:E; [|constructor].
  destruct d as [|[]|s|q]; simpl in E; try discriminate.
  - constructor.
  - constructor. now apply Qltb_lt.
Qed.

Lemma add_nonneg x y :
  nonneg false x -> nonneg false y -> nonneg false (F.add x y).
Proof.
  intros [|p Hp|] [|q Hq|]; simpl; try constructor.
  - rewrite of_Q_pos by assumption. constructor. now apply Qred_pos.
  - rewrite of_Q_pos by assumption. constructor. now apply Qred_pos.
  - assert (0 < p + q)%Q by lra.
    rewrite of_Q_pos by assumption. constructor. now apply Qred_pos.
Qed.

Lemma add_nonpos x y : nonpos x -> nonpos y -> nonpos (F.add x y).
Proof.
  intros [|p Hp|] [|q Hq|]; simpl; try constructor.
  - rewrite of_Q_neg by assumption. constructor. now apply Qred_neg.
  - rewrite of_Q_neg by assumption. constructor. now apply Qred_neg.
  - assert (p + q < 0)%Q by lra.
    rewrite of_Q_neg by assumption. constructor. now apply Qred_neg.
Qed.

Lemma add_pos_l x y : pos x -> nonneg false y -> pos (F.add x y).
Proof.
  intros [p Hp|] [|q Hq|]; simpl; try constructor.
  - rewrite of_Q_pos by assumption. constructor. now apply Qred_pos.
  - assert (0 < p + q)%Q by lra.
    rewrite of_Q_pos by assumption. constructor. now apply Qred_pos.
Qed.

Lemma add_pos_r x y : nonneg false x -> pos y -> pos (F.add x y).
Proof.
  intros [|p Hp|] [q Hq|]; simpl; try constructor.
  - rewrite of_Q_pos by assumption. constructor. now apply Qred_pos.
  - assert (0 < p + q)%Q by lra.
    rewrite of_Q_pos by assumption. constructor. now apply Qred_pos.
Qed.

Lemma opp_nonpos x : nonpos x -> nonneg true (F.opp x).
Proof.
  intros [|q Hq|]; simpl; try constructor.
  rewrite Qis0_neg by assumption. constructor. lra.
Qed.

Lemma div_fin_fin p q :
  F.Qis0 p = false -> F.Qis0 q = false ->
  F.div (Finite p) (Finite q) = Finite (Qred (p / q)).
Proof. intros Hp Hq. unfold F.div, F.is_zero. now rewrite Hp, Hq. Qed.

Lemma Qdiv_pos p q : (0 < p)%Q -> (0 < q)%Q -> (0 < p / q)%Q.
Proof.
  intros Hp Hq. apply Qlt_shift_div_l; [assumption | lra].
Qed.

Lemma Qdiv_neg p q : (p < 0)%Q -> (0 < q)%Q -> (p / q < 0)%Q.
Proof.
  intros Hp Hq. apply Qlt_shift_div_r; [assumption | lra].
Qed.

(** Dividing by the (positive) window length keeps the sign class. *)
Lemma div_nonneg x q :
  nonneg false x -> (0 < q)%Q -> nonneg false (F.div x (Finite q)).
Proof.
  intros [|p Hp|] Hq.
  - unfold F.div, F.is_zero. rewrite (Qis0_pos q Hq). simpl.
    rewrite (Qisneg_pos q Hq). constructor.
  - rewrite div_fin_fin by now apply Qis0_pos.
    constructor. apply Qred_pos. now apply Qdiv_pos.
  - simpl. rewrite (Qisneg_pos q Hq). constructor.
Qed.

Lemma div_pos x q : pos x -> (0 < q)%Q -> pos (F.div x (Finite q)).
Proof.
  intros [p Hp|] Hq.
  - rewrite div_fin_fin by now apply Qis0_pos.
    constructor. apply Qred_pos. now apply Qdiv_pos.
  - simpl. rewrite (Qisneg_pos q Hq). constructor.
Qed.

Lemma div_nonpos x q :
  nonpos x -> (0 < q)%Q -> nonpos (F.div x (Finite q)).
Proof.
  intros [|p Hp|] Hq.
  - unfold F.div, F.is_zero. rewrite (Qis0_pos q Hq). simpl.
    rewrite (Qisneg_pos q Hq). constructor.
  - rewrite div_fin_fin by (first [now apply Qis0_pos | now apply Qis0_neg]).
    constructor. apply Qred_neg. now apply Qdiv_neg.
  - simpl. rewrite (Qisneg_pos q Hq). constructor.
Qed.

(** *** The RSI formula on sign-classified averages *)

(** No loss and some gain: [rs] is infinite and the formula gives 100. *)
Lemma rsi_no_loss g : pos g -> rsi_of_rs (F.div g (Zero true)) = hundred.
Proof.
  intros [p Hp|].
  - unfold F.div, F.is_zero. rewrite (Qis0_pos p Hp). cbn [F.sign].
    rewrite (Qisneg_pos p Hp). reflexivity.
  - reflexivity.
Qed.

(** No loss and no gain: [0/0]. *)
Lemma rsi_no_move : rsi_of_rs (F.div (Zero false) (Zero true)) = NaN.
Proof. reflexivity. Qed.

End FloatFacts.

(* ===================================================================== *)
(** ** Facts about the Series operations *)
(* ===================================================================== *)

Module SeriesFacts.
Import FloatFacts.

Lemma length_diff_from prev s : length (diff_from prev s) = length s.
Proof. revert prev. induction s as [|x r IH]; intros prev; simpl; auto. Qed.

Lemma length_diff s : length (diff s) = length s.
Proof. destruct s; simpl; [reflexivity|]. now rewrite length_diff_from. Qed.

Lemma length_rolling_mean w s : length (rolling_mean w s) = length s.
Proof. unfold rolling_mean. now rewrite length_fmap, length_seq. Qed.

Lemma lookup_rolling_mean w s i :
  (i < length s)%nat -> rolling_mean w s !! i = Some (rolling_mean_at w s i).
Proof.
  intros H. unfold rolling_mean.
  rewrite list_lookup_fmap, lookup_seq_lt by assumption. reflexivity.
Qed.

Lemma length_where_gt0 s : length (where_gt0 s) = length s.
Proof. apply length_fmap. Qed.

Lemma length_where_lt0 s : length (where_lt0 s) = length s.
Proof. apply length_fmap. Qed.

Lemma length_delta_series data : length (delta_series data) = length data.
Proof. unfold delta_series, close_col. now rewrite length_diff, length_fmap. Qed.

Lemma length_gain_series data w : length (gain_series data w) = length data.
Proof.
  unfold gain_series.
  now rewrite length_rolling_mean, length_where_gt0, length_delta_series.
Qed.

Lemma length_loss_series data w : length (loss_series data w) = length data.
Proof.
  unfold loss_series.
  now rewrite length_fmap, length_rolling_mean, length_where_lt0,
    length_delta_series.
Qed.

Lemma length_calculate_rsi data w : length (calculate_rsi data w) = length data.
Proof.
  unfold calculate_rsi, series_map2.
  rewrite length_fmap, length_zip_with, length_gain_series, length_loss_series.
  lia.
Qed.

Lemma lookup_gain_series data w i :
  (i < length data)%nat -> gain_series data w !! i = Some (gain_at data w i).
Proof.
  intros H. unfold gain_series, gain_at. apply lookup_rolling_mean.
  now rewrite length_where_gt0, length_delta_series.
Qed.

Lemma lookup_loss_series data w i :
  (i < length data)%nat -> loss_series data w !! i = Some (loss_at data w i).
Proof.
  intros H. unfold loss_series, loss_at.
  rewrite list_lookup_fmap, lookup_rolling_mean; [reflexivity|].
  now rewrite length_where_lt0, length_delta_series.
Qed.

Lemma lookup_calculate_rsi data w i :
  (i < length data)%nat ->
  calculate_rsi data w !! i
  = Some (rsi_of_rs (F.div (gain_at data w i) (loss_at data w i))).
Proof.
  intros H. unfold calculate_rsi, series_map2. cbv zeta.
  rewrite list_lookup_fmap, lookup_zip_with.
  rewrite lookup_gain_series, lookup_loss_series by assumption.
  reflexivity.
Qed.

Lemma lookup_calculate_rsi_lt data w i x :
  calculate_rsi data w !! i = Some x -> (i < length data)%nat.
Proof.
  intros H. rewrite <- (length_calculate_rsi data w).
  apply lookup_lt_is_Some. eauto.
Qed.

(** *** Sums of windows *)

Lemma fold_add_nonneg s acc :
  nonneg false acc -> Forall (nonneg false) s ->
  nonneg false (fold_left F.add s acc).
Proof.
  revert acc. induction s as [|x r IH]; intros acc Ha Hs; simpl; [assumption|].
  inversion Hs; subst. apply IH; [now apply add_nonneg | assumption].
Qed.

Lemma fold_add_nonpos s acc :
  nonpos acc -> Forall nonpos s -> nonpos (fold_left F.add s acc).
Proof.
  revert acc. induction s as [|x r IH]; intros acc Ha Hs; simpl; [assumption|].
  inversion Hs; subst. apply IH; [now apply add_nonpos | assumption].
Qed.

Lemma fold_add_pos_acc s acc :
  pos acc -> Forall (nonneg false) s -> pos (fold_left F.add s acc).
Proof.
  revert acc. induction s as [|x r IH]; intros acc Ha Hs; simpl; [assumption|].
  inversion Hs; subst. apply IH; [now apply add_pos_l | assumption].
Qed.

Lemma fold_add_pos s acc :
  nonneg false acc -> Forall (nonneg false) s -> Exists pos s ->
  pos (fold_left F.add s acc).
Proof.
  revert acc. induction s as [|x r IH]; intros acc Ha Hs He; simpl.
  - inversion He.
  - inversion Hs; subst. inversion He; subst.
    + apply fold_add_pos_acc; [now apply add_pos_r | assumption].
    + apply IH; [now apply add_nonneg | assumption | assumption].
Qed.

Lemma fold_add_zeros s :
  Forall (eq (Zero false)) s -> fold_left F.add s (Zero false) = Zero false.
Proof.
  induction s as [|x r IH]; intros Hs; simpl; [reflexivity|].
  inversion Hs; subst. simpl. now apply IH.
Qed.

(** *** Finite entries *)

Lemma fin_of_Q q : F.is_finite (F.of_Q q) = true.
Proof. unfold F.of_Q. now destruct (F.Qis0 q). Qed.

Lemma fin_opp x : F.is_finite x = true -> F.is_finite (F.opp x) = true.
Proof.
  destruct x as [| | |q]; simpl; try discriminate; auto.
  now destruct (F.Qis0 q).
Qed.

Lemma fin_add x y :
  F.is_finite x = true -> F.is_finite y = true ->
  F.is_finite (F.add x y) = true.
Proof.
  destruct x, y; simpl; try discriminate; auto using fin_of_Q.
Qed.

Lemma fin_sub x y :
  F.is_finite x = true -> F.is_finite y = true ->
  F.is_finite (F.sub x y) = true.
Proof. intros Hx Hy. unfold F.sub. auto using fin_add, fin_opp. Qed.

Lemma nonneg_fin z x :
  nonneg z x -> F.is_inf x = false -> F.is_finite x = true.
Proof. now destruct 1. Qed.

Lemma no_missing s :
  Forall (fun x => F.is_finite x = true) s ->
  existsb (fun x => F.is_nan x || F.is_inf x) s = false.
Proof.
  induction 1 as [|x r Hx Hr IH]; simpl; [reflexivity|].
  rewrite IH. now destruct x.
Qed.

Lemma fin_diff_from prev s :
  F.is_finite prev = true -> Forall (fun x => F.is_finite x = true) s ->
  Forall (fun x => F.is_finite x = true) (diff_from prev s).
Proof.
  revert prev. induction s as [|x r IH]; intros prev Hp Hs; simpl;
    [constructor|].
  inversion Hs; subst. constructor; [now apply fin_sub | now apply IH].
Qed.

(** On finite closes both filtered delta columns are finite: the NaN of
    the first delta has been replaced by zero. *)
Lemma fin_where_gt0 s :
  Forall (fun x => F.is_finite x = true) s ->
  Forall (fun x => F.is_finite x = true) (where_gt0 (diff s)).
Proof.
  intros Hs. destruct s as [|x r]; [constructor|].
  inversion Hs; subst. simpl. constructor; [reflexivity|].
  apply Forall_fmap. eapply Forall_impl; [now apply fin_diff_from|].
  intros d Hd. unfold compose. now destruct (F.gt d (Zero false)).
Qed.

Lemma fin_where_lt0 s :
  Forall (fun x => F.is_finite x = true) s ->
  Forall (fun x => F.is_finite x = true) (where_lt0 (diff s)).
Proof.
  intros Hs. destruct s as [|x r]; [constructor|].
  inversion Hs; subst. simpl. constructor; [reflexivity|].
  apply Forall_fmap. eapply Forall_impl; [now apply fin_diff_from|].
  intros d Hd. unfold compose. now destruct (F.lt d (Zero false)).
Qed.

Lemma fin_zeros s :
  Forall (eq (Zero false)) s -> Forall (fun x => F.is_finite x = true) s.
Proof. intros H. eapply Forall_impl; [exact H|]. now intros x <-. Qed.

Lemma Forall_window (P : float64 -> Prop) w i s :
  Forall P s -> Forall P (window_at w i s).
Proof. intros H. unfold window_at. now apply Forall_take, Forall_drop. Qed.

(** The window ending at [i] holds entry [i]. *)
Lemma window_holds_last w i s x :
  (1 <= w)%nat -> (w <= i + 1)%nat -> s !! i = Some x ->
  x ∈ window_at w i s.
Proof.
  intros Hw Hi Hx. apply list_elem_of_lookup. exists (w - 1)%nat.
  unfold window_at. rewrite lookup_take_lt by lia. rewrite lookup_drop.
  replace (i + 1 - w + (w - 1))%nat with i by lia. assumption.
Qed.

(** *** The rolling mean *)

Lemma rolling_mean_at_early w s i :
  (i + 1 < w)%nat -> rolling_mean_at w s i = NaN.
Proof.
  intros H. unfold rolling_mean_at.
  now rewrite (proj2 (Nat.ltb_lt _ _) H).
Qed.

Lemma rolling_mean_at_full w s i :
  (w <= i + 1)%nat ->
  Forall (fun x => F.is_finite x = true) (window_at w i s) ->
  rolling_mean_at w s i = F.div (fsum (window_at w i s)) (F.of_nat w).
Proof.
  intros H Hn. unfold rolling_mean_at.
  rewrite (proj2 (Nat.ltb_ge _ _) H). cbv zeta.
  now rewrite (no_missing _ Hn).
Qed.

Lemma rolling_mean_at_nonneg w s i :
  (1 <= w)%nat -> (w <= i + 1)%nat -> Forall (nonneg false) s ->
  Forall (fun x => F.is_finite x = true) s ->
  nonneg false (rolling_mean_at w s i).
Proof.
  intros Hw Hi Hs Hfin. destruct (of_nat_pos w Hw) as (q & Eq & Hq).
  rewrite rolling_mean_at_full, Eq by auto using Forall_window.
  apply div_nonneg; [|assumption].
  apply fold_add_nonneg; [constructor | now apply Forall_window].
Qed.

Lemma rolling_mean_at_nonpos w s i :
  (1 <= w)%nat -> (w <= i + 1)%nat -> Forall nonpos s ->
  Forall (fun x => F.is_finite x = true) s ->
  nonpos (rolling_mean_at w s i).
Proof.
  intros Hw Hi Hs Hfin. destruct (of_nat_pos w Hw) as (q & Eq & Hq).
  rewrite rolling_mean_at_full, Eq by auto using Forall_window.
  apply div_nonpos; [|assumption].
  apply fold_add_nonpos; [constructor | now apply Forall_window].
Qed.


Lemma rolling_mean_at_zeros w s i :
  (1 <= w)%nat -> (w <= i + 1)%nat -> Forall (eq (Zero false)) s ->
  rolling_mean_at w s i = Zero false.
Proof.
  intros Hw Hi Hs. destruct (of_nat_pos w Hw) as (q & Eq & Hq).
  pose proof (Forall_window _ w i s Hs) as Hwin.
  rewrite rolling_mean_at_full, Eq by auto using fin_zeros.
  unfold fsum. rewrite fold_add_zeros by assumption.
  unfold F.div, F.is_zero. rewrite (Qis0_pos q Hq). cbn [F.sign].
  now rewrite (Qisneg_pos q Hq).
Qed.

(** The sign of the entries of the two filtered delta columns. *)
Lemma where_gt0_nonneg s : Forall (nonneg false) (where_gt0 s).
Proof.
  unfold where_gt0. apply Forall_fmap, Forall_forall. intros d _.
  apply keep_gt0_nonneg.
Qed.

Lemma where_lt0_nonpos s : Forall nonpos (where_lt0 s).
Proof.
  unfold where_lt0. apply Forall_fmap, Forall_forall. intros d _.
  apply keep_lt0_nonpos.
Qed.

Lemma gain_at_early data w i : (i + 1 < w)%nat -> gain_at data w i = NaN.
Proof. apply rolling_mean_at_early. Qed.

Lemma loss_at_early data w i : (i + 1 < w)%nat -> loss_at data w i = NaN.
Proof. intros H. unfold loss_at. now rewrite rolling_mean_at_early. Qed.

Lemma gain_at_nonneg data w i :
  (1 <= w)%nat -> (w <= i + 1)%nat ->
  Forall (fun x => F.is_finite x = true) (close_col data) ->
  nonneg false (gain_at data w i).
Proof.
  intros Hw Hi Hfin. apply rolling_mean_at_nonneg; try assumption.
  - apply where_gt0_nonneg.
  - now apply fin_where_gt0.
Qed.

Lemma loss_at_nonneg data w i :
  (1 <= w)%nat -> (w <= i + 1)%nat ->
  Forall (fun x => F.is_finite x = true) (close_col data) ->
  nonneg true (loss_at data w i).
Proof.
  intros Hw Hi Hfin. apply opp_nonpos.
  apply rolling_mean_at_nonpos; try assumption.
  - apply where_lt0_nonpos.
  - now apply fin_where_lt0.
Qed.

End SeriesFacts.

(* ===================================================================== *)
(** ** Properties of [calculate_rsi] *)
(* ===================================================================== *)

Module RSI.
Import FloatFacts SeriesFacts.

Lemma rsi_of_nan_gain l : rsi_of_rs (F.div NaN l) = NaN.
Proof. reflexivity. Qed.

(** *** Flat series *)

Lemma zero_not_kept_gt0 d :
  F.is_zero d = true -> (if F.gt d (Zero false) then d else Zero false) = Zero false.
Proof.
  destruct d as [| |s|q]; simpl; try discriminate; [reflexivity|].
  intros Hq. apply Qis0_eq in Hq.
  destruct (F.Qltb 0 q) eqn:E; [|reflexivity].
  apply Qltb_lt in E. rewrite Hq in E. now apply Qlt_irrefl in E.
Qed.

Lemma zero_not_kept_lt0 d :
  F.is_zero d = true -> (if F.lt d (Zero false) then d else Zero false) = Zero false.
Proof.
  destruct d as [| |s|q]; simpl; try discriminate; [reflexivity|].
  intros Hq. apply Qis0_eq in Hq.
  destruct (F.Qltb q 0) eqn:E; [|reflexivity].
  apply Qltb_lt in E. rewrite Hq in E. now apply Qlt_irrefl in E.
Qed.

Lemma diff_head_tail s : s <> [] -> diff s = NaN :: tail (diff s).
Proof. destruct s; [congruence | reflexivity]. Qed.

Lemma flat_where_gt0 s :
  flat s = true -> Forall (eq (Zero false)) (where_gt0 (diff s)).
Proof.
  unfold flat. intros H. destruct s as [|x r]; [constructor|].
  simpl in *. constructor; [reflexivity|].
  apply Forall_fmap, Forall_forall. intros d Hd. simpl.
  rewrite forallb_forall in H. symmetry. apply zero_not_kept_gt0, H.
  now apply list_elem_of_In.
Qed.

Lemma flat_where_lt0 s :
  flat s = true -> Forall (eq (Zero false)) (where_lt0 (diff s)).
Proof.
  unfold flat. intros H. destruct s as [|x r]; [constructor|].
  simpl in *. constructor; [reflexivity|].
  apply Forall_fmap, Forall_forall. intros d Hd. simpl.
  rewrite forallb_forall in H. symmetry. apply zero_not_kept_lt0, H.
  now apply list_elem_of_In.
Qed.

Lemma whole_fin s :
  forallb whole s = true -> Forall (fun x => F.is_finite x = true) s.
Proof.
  intros H. apply Forall_forall. intros x Hx.
  rewrite forallb_forall in H. apply list_elem_of_In, H in Hx.
  now destruct x.
Qed.

(** C2, as stated, fails on two counts.  On fifteen flat bars the two
    averages at index 0 are NaN, not 0; and the undefined RSI is the float
    NaN, which [evaluate_stock] compares with the threshold and rounds
    like any other float. *)
Lemma flat_rsi_is_an_ordinary_nan :
  flat (close_col flat15) = true
  /\ gain_series flat15 14 !! 0%nat = Some NaN
  /\ loss_series flat15 14 !! 0%nat = Some NaN
  /\ last (calculate_rsi flat15 14) = Some NaN
  /\ F.gt NaN (Finite 50) = false
  /\ F.round NaN 2 = NaN
  /\ res_rsi (evaluate_stock (fun _ => Ok flat15) "FLAT" (Finite 50)) = Some NaN.
Proof. repeat split; vm_compute; reflexivity. Qed.

(** C2, amended.  On a flat closing-price series (every day-over-day
    delta zero) the RSI is the float NaN at every index, never 0 or 100:
    before index [w - 1] because the two averages are NaN themselves,
    from index [w - 1] on because the average gain is [+0.0], the average
    loss [-0.0] and their ratio [0/0]. *)
Theorem flat_series_rsi_nan (data : DataFrame) (w i : nat) :
  (1 <= w)%nat ->
  flat (close_col data) = true ->
  (i < length data)%nat ->
  calculate_rsi data w !! i = Some NaN
  /\ ((i + 1 < w)%nat ->
      gain_series data w !! i = Some NaN
      /\ loss_series data w !! i = Some NaN)
  /\ ((w <= i + 1)%nat ->
      gain_series data w !! i = Some (Zero false)
      /\ loss_series data w !! i = Some (Zero true)).
Proof.
  intros Hw Hflat Hi.
  rewrite lookup_calculate_rsi, lookup_gain_series, lookup_loss_series
    by assumption.
  assert ((w <= i + 1)%nat ->
          gain_at data w i = Zero false /\ loss_at data w i = Zero true)
    as Hfull.
  { intros Hfull. unfold gain_at, loss_at, delta_series.
    rewrite !rolling_mean_at_zeros;
      auto using flat_where_gt0, flat_where_lt0. }
  split; [|split].
  - f_equal. destruct (Nat.ltb_spec (i + 1) w) as [Hearly|Hge].
    + now rewrite gain_at_early.
    + destruct (Hfull Hge) as [-> ->]. reflexivity.
  - intros Hearly. now rewrite gain_at_early, loss_at_early.
  - intros Hge. now destruct (Hfull Hge) as [-> ->].
Qed.

Lemma flat_series_rsi_nan_witness :
  (calculate_rsi flat15 14 !! 0%nat = Some NaN
   /\ gain_series flat15 14 !! 0%nat = Some NaN
   /\ loss_series flat15 14 !! 0%nat = Some NaN)
  /\ (calculate_rsi flat15 14 !! 14%nat = Some NaN
      /\ gain_series flat15 14 !! 14%nat = Some (Zero false)
      /\ loss_series flat15 14 !! 14%nat = Some (Zero true)).
Proof.
  split.
  - destruct (flat_series_rsi_nan flat15 14 0) as (Hrsi & Hearly & _);
      [lia | reflexivity | simpl; lia |].
    split; [exact Hrsi | apply Hearly; lia].
  - destruct (flat_series_rsi_nan flat15 14 14) as (Hrsi & _ & Hfull);
      [lia | reflexivity | simpl; lia |].
    split; [exact Hrsi | apply Hfull; lia].
Defined.

(** *** Where the averages are defined *)

(** C4, as stated, fails: with the default window of 14 the averages and
    the RSI at index 13 are defined, because the undefined first delta
    has been replaced by 0 before averaging. *)
Lemma averages_defined_at_index_13 :
  (13 < 14)%nat
  /\ (exists g, gain_series rising15 14 !! 13%nat = Some g
                /\ F.gt g (Zero false) = true)
  /\ loss_series rising15 14 !! 13%nat = Some (Zero true)
  /\ calculate_rsi rising15 14 !! 13%nat = Some hundred.
Proof.
  split; [lia|]. split; [eexists; split; vm_compute; reflexivity|].
  split; vm_compute; reflexivity.
Qed.

(** C4, amended.  For a window [w >= 1] the averages of gains and of
    losses, and the RSI, are defined only from index [w - 1] on: at every
    index [i < w - 1] all three are NaN.  From index [w - 1] on both
    averages are defined when the closes are whole numbers. *)
Theorem averages_defined_only_from_window_minus_1
    (data : DataFrame) (w i : nat) :
  (1 <= w)%nat ->
  (i < length data)%nat ->
  ((i + 1 < w)%nat ->
     gain_series data w !! i = Some NaN
     /\ loss_series data w !! i = Some NaN
     /\ calculate_rsi data w !! i = Some NaN)
  /\ ((w <= i + 1)%nat ->
      forallb whole (close_col data) = true ->
      exists g l,
        gain_series data w !! i = Some g /\ g <> NaN
        /\ loss_series data w !! i = Some l /\ l <> NaN).
Proof.
  intros Hw Hi.
  rewrite lookup_gain_series, lookup_loss_series, lookup_calculate_rsi
    by assumption.
  split.
  - intros Hearly. now rewrite gain_at_early, loss_at_early.
  - intros Hfull Hwhole. exists (gain_at data w i), (loss_at data w i).
    pose proof (gain_at_nonneg data w i Hw Hfull (whole_fin _ Hwhole)) as Hg.
    pose proof (loss_at_nonneg data w i Hw Hfull (whole_fin _ Hwhole)) as Hl.
    repeat split; [inversion Hg | inversion Hl]; congruence.
Qed.

Lemma averages_defined_only_from_window_minus_1_witness :
  (gain_series rising15 14 !! 12%nat = Some NaN
   /\ loss_series rising15 14 !! 12%nat = Some NaN
   /\ calculate_rsi rising15 14 !! 12%nat = Some NaN)
  /\ (exists g l,
        gain_series rising15 14 !! 13%nat = Some g /\ g <> NaN
        /\ loss_series rising15 14 !! 13%nat = Some l /\ l <> NaN).
Proof.
  split.
  - destruct (averages_defined_only_from_window_minus_1 rising15 14 12)
      as [Hearly _]; [lia | simpl; lia |].
    apply Hearly. lia.
  - destruct (averages_defined_only_from_window_minus_1 rising15 14 13)
      as [_ Hfull]; [lia | simpl; lia |].
    apply Hfull; [lia | reflexivity].
Defined.

(** *** Strictly increasing series *)








End RSI.

(* ===================================================================== *)
(** ** Properties of [evaluate_stock] *)
(* ===================================================================== *)

Module Evaluate.
Import FloatFacts SeriesFacts.

Lemma iloc_last {A : Type} (s : list A) (x : A) :
  last s = Some x -> iloc s (-1) = Ok x.
Proof.
  rewrite last_lookup. intros H.
  assert (pred (length s) < length s)%nat as Hlt.
  { apply lookup_lt_is_Some. eauto. }
  unfold iloc. cbv zeta.
  replace (-1 <? 0) with true by reflexivity.
  destruct (Z.ltb_spec (Z.of_nat (length s) + -1) 0) as [Hn|Hn]; [lia|].
  destruct (Z.leb_spec (Z.of_nat (length s)) (Z.of_nat (length s) + -1))
    as [Hm|Hm]; [lia|].
  cbn [orb].
  replace (Z.to_nat (Z.of_nat (length s) + -1)) with (pred (length s)) by lia.
  now rewrite H.
Qed.

Lemma iloc_before_last {A : Type} (s : list A) (x : A) :
  s !! (length s - 2)%nat = Some x -> (2 <= length s)%nat ->
  iloc s (-2) = Ok x.
Proof.
  intros H Hlen. unfold iloc. cbv zeta.
  replace (-2 <? 0) with true by reflexivity.
  destruct (Z.ltb_spec (Z.of_nat (length s) + -2) 0) as [Hn|Hn]; [lia|].
  destruct (Z.leb_spec (Z.of_nat (length s)) (Z.of_nat (length s) + -2))
    as [Hm|Hm]; [lia|].
  cbn [orb].
  replace (Z.to_nat (Z.of_nat (length s) + -2)) with (length s - 2)%nat by lia.
  now rewrite H.
Qed.

Lemma eqb_not_gt a b : F.eqb a b = true -> F.gt a b = false.
Proof.
  assert (forall p q, Qeq_bool p q = true -> F.Qltb q p = false) as HQ.
  { intros p q H. apply Qeq_bool_iff in H. apply not_true_iff_false.
    rewrite Qltb_lt, H. apply Qlt_irrefl. }
  destruct a as [|[]|sa|p], b as [|[]|sb|q]; simpl; try discriminate;
    auto.
Qed.

Section WithProvider.

Variable yf_download : string -> outcome DataFrame.

(** The result on a frame of at least 15 bars, in terms of the five
    values the function reads. *)
Lemma evaluate_stock_full symbol thr data rsi pt py vt vy :
  yf_download symbol = Ok data ->
  (15 <= length data)%nat ->
  last (calculate_rsi data 14) = Some rsi ->
  last (close_col data) = Some pt ->
  close_col data !! (length data - 2)%nat = Some py ->
  last (volume_col data) = Some vt ->
  volume_col data !! (length data - 2)%nat = Some vy ->
  evaluate_stock yf_download symbol thr
  = mkResult symbol (Some (F.round pt 2)) (Some (F.round rsi 2))
      (Some (F.gt pt py)) (Some (F.gt vt vy))
      (if F.gt rsi thr && F.gt pt py && F.gt vt vy
       then StrongBuy else NotStrongBuy).
Proof.
  intros Hf Hlen Hrsi Hpt Hpy Hvt Hvy.
  assert (length (close_col data) = length data) as Lc
    by apply length_fmap.
  assert (length (volume_col data) = length data) as Lv
    by apply length_fmap.
  unfold evaluate_stock, evaluate_body. rewrite Hf. cbn [bind].
  destruct (Nat.eqb_spec (length data) 0) as [E|_]; [lia|].
  destruct (Nat.ltb_spec (length data) 15) as [E|_]; [lia|].
  cbn [orb]. cbv zeta.
  rewrite (iloc_last _ _ Hrsi), (iloc_last _ _ Hpt), (iloc_last _ _ Hvt).
  rewrite (iloc_before_last (close_col data) py),
    (iloc_before_last (volume_col data) vy); try lia;
    try (rewrite ?Lc, ?Lv; assumption).
  reflexivity.
Qed.

(** The five values exist as soon as the frame has 15 bars. *)
Lemma reads_exist data :
  (15 <= length data)%nat ->
  exists rsi pt py vt vy,
    last (calculate_rsi data 14) = Some rsi
    /\ last (close_col data) = Some pt
    /\ close_col data !! (length data - 2)%nat = Some py
    /\ last (volume_col data) = Some vt
    /\ volume_col data !! (length data - 2)%nat = Some vy.
Proof.
  intros Hlen.
  assert (length (close_col data) = length data) as Lc
    by apply length_fmap.
  assert (length (volume_col data) = length data) as Lv
    by apply length_fmap.
  pose proof (length_calculate_rsi data 14) as Lr.
  destruct (lookup_lt_is_Some_2 (calculate_rsi data 14)
              (pred (length (calculate_rsi data 14)))) as [rsi Hrsi]; [lia|].
  destruct (lookup_lt_is_Some_2 (close_col data)
              (pred (length (close_col data)))) as [pt Hpt]; [lia|].
  destruct (lookup_lt_is_Some_2 (volume_col data)
              (pred (length (volume_col data)))) as [vt Hvt]; [lia|].
  destruct (lookup_lt_is_Some_2 (close_col data) (length data - 2))
    as [py Hpy]; [lia|].
  destruct (lookup_lt_is_Some_2 (volume_col data) (length data - 2))
    as [vy Hvy]; [lia|].
  exists rsi, pt, py, vt, vy. rewrite !last_lookup. auto.
Qed.

(** C1.  On a fetched series of at least 15 bars the verdict is
    StrongBuy exactly when the unrounded last RSI is strictly above
    the threshold, the last close strictly above the previous close
    and the last volume strictly above the previous volume; in every
    other case, equality in any of the three comparisons included, it
    is NotStrongBuy. *)
Theorem strong_buy_iff symbol thr data rsi pt py vt vy :
  yf_download symbol = Ok data ->
  (15 <= length data)%nat ->
  last (calculate_rsi data 14) = Some rsi ->
  last (close_col data) = Some pt ->
  close_col data !! (length data - 2)%nat = Some py ->
  last (volume_col data) = Some vt ->
  volume_col data !! (length data - 2)%nat = Some vy ->
  (res_verdict (evaluate_stock yf_download symbol thr) = StrongBuy
   <-> F.gt rsi thr = true /\ F.gt pt py = true /\ F.gt vt vy = true)
  /\ (res_verdict (evaluate_stock yf_download symbol thr) <> StrongBuy ->
      res_verdict (evaluate_stock yf_download symbol thr) = NotStrongBuy)
  /\ (F.eqb rsi thr = true ->
      res_verdict (evaluate_stock yf_download symbol thr) = NotStrongBuy)
  /\ (F.eqb pt py = true ->
      res_verdict (evaluate_stock yf_download symbol thr) = NotStrongBuy)
  /\ (F.eqb vt vy = true ->
      res_verdict (evaluate_stock yf_download symbol thr) = NotStrongBuy).
Proof.
  intros Hf Hlen Hrsi Hpt Hpy Hvt Hvy.
  rewrite (evaluate_stock_full _ thr _ _ _ _ _ _ Hf Hlen Hrsi Hpt Hpy Hvt Hvy).
  cbn [res_verdict].
  repeat split.
  - destruct (F.gt rsi thr); [reflexivity | discriminate].
  - destruct (F.gt rsi thr), (F.gt pt py); try reflexivity; discriminate.
  - destruct (F.gt rsi thr), (F.gt pt py), (F.gt vt vy);
      try reflexivity; discriminate.
  - intros (-> & -> & ->). reflexivity.
  - destruct (F.gt rsi thr && F.gt pt py && F.gt vt vy); congruence.
  - intros E. now rewrite (eqb_not_gt _ _ E).
  - intros E. rewrite (eqb_not_gt _ _ E).
    now destruct (F.gt rsi thr).
  - intros E. rewrite (eqb_not_gt _ _ E).
    now destruct (F.gt rsi thr), (F.gt pt py).
Qed.

(** The early return of line 26. *)
Lemma evaluate_stock_short symbol thr data :
  yf_download symbol = Ok data ->
  (length data < 15)%nat ->
  evaluate_stock yf_download symbol thr
  = mkResult symbol None None None None SkippedInsufficientData.
Proof.
  intros Hf Hlen. unfold evaluate_stock, evaluate_body. rewrite Hf.
  cbn [bind try_except].
  apply Nat.ltb_lt in Hlen. rewrite Hlen, orb_true_r. reflexivity.
Qed.

(** C5.  A fetched series that is empty or has fewer than 15 bars
    gives SkippedInsufficientData, with no price, RSI or direction
    flag, whatever the symbol and the threshold. *)
Theorem insufficient_data symbol thr data :
  yf_download symbol = Ok data ->
  (length data < 15)%nat ->
  evaluate_stock yf_download symbol thr
  = mkResult symbol None None None None SkippedInsufficientData.
Proof.
  intros Hf Hlen. unfold evaluate_stock, evaluate_body.
  rewrite Hf. cbn [bind].
  destruct (Nat.ltb_spec (length data) 15) as [_|E]; [|lia].
  now rewrite orb_true_r.
Qed.

(** C3, amended.  When the series passes the minimum-bars check and
    its most recent RSI is undefined, [evaluate_stock] returns
    NotStrongBuy and reports the RSI as NaN. *)
Theorem undefined_rsi_not_strong_buy symbol thr data :
  yf_download symbol = Ok data ->
  (15 <= length data)%nat ->
  last (calculate_rsi data 14) = Some NaN ->
  res_verdict (evaluate_stock yf_download symbol thr) = NotStrongBuy
  /\ res_rsi (evaluate_stock yf_download symbol thr) = Some NaN.
Proof.
  intros Hf Hlen Hnan.
  destruct (reads_exist data Hlen) as (rsi & pt & py & vt & vy & Hrsi & H).
  destruct H as (Hpt & Hpy & Hvt & Hvy).
  rewrite Hnan in Hrsi. injection Hrsi as <-.
  rewrite (evaluate_stock_full _ thr _ _ _ _ _ _ Hf Hlen Hnan Hpt Hpy Hvt Hvy).
  split; reflexivity.
Qed.

(** An exception raised anywhere in the body is folded into the
    result. *)
Lemma evaluate_stock_catches symbol thr e :
  evaluate_body yf_download symbol thr = Raise e ->
  evaluate_stock yf_download symbol thr = mkResult symbol None None None None (SkippedFetchError e).
Proof. intros H. unfold evaluate_stock. now rewrite H. Qed.

Lemma evaluate_stock_fetch_error symbol thr e :
  yf_download symbol = Raise e ->
  evaluate_stock yf_download symbol thr = mkResult symbol None None None None (SkippedFetchError e).
Proof.
  intros H. apply evaluate_stock_catches. unfold evaluate_body.
  now rewrite H.
Qed.

Lemma res_symbol_evaluate symbol thr :
  res_symbol (evaluate_stock yf_download symbol thr) = symbol.
Proof.
  unfold evaluate_stock.
  destruct (evaluate_body yf_download symbol thr) as [r|e] eqn:E;
    [|reflexivity].
  unfold evaluate_body in E. cbn [try_except].
  destruct (yf_download symbol) as [data|]; [|discriminate].
  cbn [bind] in E.
  destruct ((length data =? 0)%nat || (length data <? 15)%nat).
  { now injection E as <-. }
  cbv zeta in E.
  repeat match type of E with
         | bind ?c _ = _ => destruct c; [|discriminate]; cbn [bind] in E
         end.
  now injection E as <-.
Qed.

(** *** The loop of [main] *)

Lemma skipped_prefix v :
  starts_with_Skipped (verdict_text v)
  = match v with
    | SkippedInsufficientData | SkippedFetchError _ => true
    | _ => false
    end.
Proof. destruct v; reflexivity. Qed.

Lemma main_step_spec thr ps rows symbol :
  main_step yf_download thr (ps, rows) symbol
  = (ps ++ [(symbol, panel_of (evaluate_stock yf_download symbol thr))],
     rows ++ (if is_strong_buy (evaluate_stock yf_download symbol thr)
              then [row_of (evaluate_stock yf_download symbol thr)] else [])).
Proof.
  unfold main_step, panel_of, is_strong_buy, row_of. cbv zeta.
  rewrite skipped_prefix, res_symbol_evaluate.
  destruct (res_verdict (evaluate_stock yf_download symbol thr)); cbn;
    now rewrite ?app_nil_r.
Qed.

Lemma main_loop_from symbols thr ps rows :
  fold_left (main_step yf_download thr) symbols (ps, rows)
  = (ps ++ ((fun s => (s, panel_of (evaluate_stock yf_download s thr))) <$> symbols),
     rows ++ (row_of <$> List.filter is_strong_buy
                           ((fun s => evaluate_stock yf_download s thr) <$> symbols))).
Proof.
  revert ps rows. induction symbols as [|s r IH]; intros ps rows.
  - cbn. now rewrite !app_nil_r.
  - cbn [fold_left]. rewrite main_step_spec, IH, !fmap_cons.
    cbn [List.filter]. rewrite <- !app_assoc.
    destruct (is_strong_buy (evaluate_stock yf_download s thr)); reflexivity.
Qed.

Lemma main_loop_spec symbols thr :
  main_loop yf_download symbols thr
  = ((fun s => (s, panel_of (evaluate_stock yf_download s thr))) <$> symbols,
     row_of <$> List.filter is_strong_buy
                  ((fun s => evaluate_stock yf_download s thr) <$> symbols)).
Proof. unfold main_loop. now rewrite main_loop_from. Qed.

Variable float_repr : float64 -> string.





End WithProvider.

(** *** Exceptions outside [Exception] *)

Lemma main_step_record (yf : string -> outcome DataFrame) thr st symbol :
  main_step yf thr st symbol
  = record_result st symbol (evaluate_stock yf symbol thr).
Proof. destruct st. reflexivity. Qed.

Lemma record_result_spec ps rows symbol r :
  record_result (ps, rows) symbol r
  = (ps ++ [(symbol, panel_of r)],
     rows ++ (if is_strong_buy r
              then [mkRow symbol (res_price r) (res_rsi r)] else [])).
Proof.
  unfold record_result, panel_of, is_strong_buy. cbv zeta.
  rewrite skipped_prefix.
  destruct (res_verdict r); cbn; now rewrite ?app_nil_r.
Qed.

(** With a provider that raises nothing but instances of [Exception],
    the two embeddings of [evaluate_stock] agree. *)
Lemma evaluate_stock_call_of_outcome
    (yf : string -> outcome DataFrame) symbol thr :
  evaluate_stock_call (fun s => of_outcome (yf s)) symbol thr
  = Returns (evaluate_stock yf symbol thr).
Proof.
  unfold evaluate_stock_call, evaluate_body_call, evaluate_stock, evaluate_body.
  destruct (yf symbol) as [data|e]; cbn [of_outcome call_bind bind];
    [|reflexivity].
  destruct ((length data =? 0)%nat || (length data <? 15)%nat);
    [reflexivity|].
  cbv zeta.
  repeat match goal with
         | |- context [iloc ?c ?k] =>
             destruct (iloc c k);
             cbn [of_outcome call_bind bind try_except try_except_Exception];
             try reflexivity
         end.
Qed.

Lemma main_loop_call_of_outcome
    (yf : string -> outcome DataFrame) symbols thr :
  main_loop_call (fun s => of_outcome (yf s)) symbols thr
  = Returns (main_loop yf symbols thr).
Proof.
  unfold main_loop_call, main_loop. generalize ([] : list (string * Panel),
                                                [] : list Row).
  induction symbols as [|s rest IH]; intros st; [reflexivity|].
  cbn [main_loop_call_from fold_left].
  rewrite evaluate_stock_call_of_outcome. cbn [call_bind].
  now rewrite IH, main_step_record.
Qed.

Lemma evaluate_stock_call_never_raises
    (yf : string -> call DataFrame) symbol thr msg :
  evaluate_stock_call yf symbol thr <> Raises msg.
Proof.
  unfold evaluate_stock_call.
  now destruct (evaluate_body_call yf symbol thr).
Qed.

Lemma loop_call_completes (yf : string -> call DataFrame) thr symbols :
  forall st,
    (forall s, s ∈ symbols -> exists r, evaluate_stock_call yf s thr = Returns r) ->
    exists results rows,
      Forall2 (fun s r => evaluate_stock_call yf s thr = Returns r)
        symbols results
      /\ main_loop_call_from yf symbols thr st
         = Returns (fst st ++ zip_with (fun s r => (s, panel_of r)) symbols results,
                    rows).
Proof.
  induction symbols as [|s rest IH]; intros [ps rows] Hall.
  - exists [], rows. split; [constructor|]. cbn. now rewrite app_nil_r.
  - destruct (Hall s) as [r Hr]; [left|].
    cbn [main_loop_call_from]. rewrite Hr. cbn [call_bind].
    rewrite record_result_spec.
    edestruct IH as (results & rows' & Hres & ->).
    { intros s' Hs'. apply Hall. now right. }
    exists (r :: results), rows'. split; [now constructor|].
    cbn [fst zip_with]. now rewrite <- app_assoc.
Qed.

Lemma loop_call_aborts (yf : string -> call DataFrame) thr before s after name :
  forall st,
    (forall s', s' ∈ before ->
                exists r, evaluate_stock_call yf s' thr = Returns r) ->
    evaluate_stock_call yf s thr = Exits name ->
    main_loop_call_from yf (before ++ s :: after) thr st = Exits name.
Proof.
  induction before as [|b before IH]; intros st Hall Hs.
  - cbn. now rewrite Hs.
  - destruct (Hall b) as [r Hr]; [left|].
    cbn [app main_loop_call_from]. rewrite Hr. cbn [call_bind].
    apply IH; [|assumption]. intros s' Hs'. apply Hall. now right.
Qed.

(** C6, as stated, fails: an exception that is not an instance of
    [Exception], such as the [KeyboardInterrupt] raised while the second
    symbol is fetched, leaves [evaluate_stock] and ends the run; no panel
    is shown for any symbol. *)
Lemma keyboard_interrupt_ends_the_run :
  evaluate_stock_call interrupted_provider "BAD" (Finite 50)
  = Exits "KeyboardInterrupt"
  /\ main_loop_call interrupted_provider ["AAA"; "BAD"; "CCC"]%string (Finite 50)
     = Exits "KeyboardInterrupt".
Proof. split; vm_compute; reflexivity. Qed.

(** C6, amended.  An instance of [Exception] raised by the fetch, or
    anywhere else in the body of [evaluate_stock], is returned as a
    SkippedFetchError result that keeps the text of the exception, and
    [evaluate_stock] never lets an instance of [Exception] out.  An
    exception outside [Exception] goes through.  So the loop of [main]
    shows one panel per symbol, each decided by that symbol's own
    evaluation, when every evaluation returns, and it ends at the first
    symbol whose evaluation is left by such an exception.  The result
    for a symbol depends on the provider's answer for that symbol
    only. *)
Theorem only_Exception_is_folded
    (yf_download : string -> call DataFrame)
    (symbols : list string) (symbol : string) (thr : float64) :
  (forall msg, evaluate_body_call yf_download symbol thr = Raises msg ->
     evaluate_stock_call yf_download symbol thr
     = Returns (mkResult symbol None None None None (SkippedFetchError msg)))
  /\ (forall msg, yf_download symbol = Raises msg ->
      evaluate_stock_call yf_download symbol thr
      = Returns (mkResult symbol None None None None (SkippedFetchError msg)))
  /\ (forall msg, evaluate_stock_call yf_download symbol thr <> Raises msg)
  /\ (forall name, yf_download symbol = Exits name ->
      evaluate_stock_call yf_download symbol thr = Exits name)
  /\ ((forall s, s ∈ symbols ->
        exists r, evaluate_stock_call yf_download s thr = Returns r) ->
      exists results rows,
        Forall2 (fun s r => evaluate_stock_call yf_download s thr = Returns r)
          symbols results
        /\ main_loop_call yf_download symbols thr
           = Returns (zip_with (fun s r => (s, panel_of r)) symbols results,
                      rows))
  /\ (forall before s after name,
       symbols = before ++ s :: after ->
       (forall s', s' ∈ before ->
          exists r, evaluate_stock_call yf_download s' thr = Returns r) ->
       evaluate_stock_call yf_download s thr = Exits name ->
       main_loop_call yf_download symbols thr = Exits name)
  /\ (forall other : string -> call DataFrame,
       other symbol = yf_download symbol ->
       evaluate_stock_call other symbol thr
       = evaluate_stock_call yf_download symbol thr).
Proof.
  split.
  { intros msg H. unfold evaluate_stock_call. now rewrite H. }
  split.
  { intros msg H. unfold evaluate_stock_call, evaluate_body_call.
    now rewrite H. }
  split; [intros msg; apply evaluate_stock_call_never_raises|].
  split.
  { intros name H. unfold evaluate_stock_call, evaluate_body_call.
    now rewrite H. }
  split.
  { intros Hall.
    destruct (loop_call_completes yf_download thr symbols ([], []) Hall)
      as (results & rows & Hres & E).
    exists results, rows. split; [assumption|]. exact E. }
  split.
  { intros before s after name -> Hall Hs. now apply loop_call_aborts. }
  intros other H. unfold evaluate_stock_call, evaluate_body_call.
  now rewrite H.
Qed.

(** C3, as stated, fails: on fifteen bars of a flat market the last RSI
    is undefined and the verdict is NotStrongBuy, not
    SkippedInsufficientData. *)
Lemma flat_market_is_not_skipped :
  (15 <= length flat15)%nat
  /\ last (calculate_rsi flat15 14) = Some NaN
  /\ evaluate_stock (fun _ => Ok flat15) "FLAT" (Finite 50)
     = mkResult "FLAT" (Some (Finite 3)) (Some NaN) (Some false) (Some false)
         NotStrongBuy.
Proof. split; [simpl; lia|]. split; vm_compute; reflexivity. Qed.

(** C10.  The threshold is compared with the unrounded RSI and the RSI
    is rounded to two decimals only in the returned tuple; so a series
    whose last RSI is 50.001 is a strong buy at threshold 50 while the
    RSI returned is 50 exactly. *)
Theorem rounded_rsi_can_equal_threshold :
  (forall yf_download symbol thr data rsi,
     yf_download symbol = Ok data ->
     (15 <= length data)%nat ->
     last (calculate_rsi data 14) = Some rsi ->
     res_rsi (evaluate_stock yf_download symbol thr) = Some (F.round rsi 2)
     /\ (res_verdict (evaluate_stock yf_download symbol thr) = StrongBuy ->
         F.gt rsi thr = true))
  /\ exists data thr rsi,
       (15 <= length data)%nat
       /\ last (calculate_rsi data 14) = Some rsi
       /\ F.gt rsi thr = true
       /\ F.round rsi 2 = thr
       /\ forall symbol,
            res_verdict (evaluate_stock (fun _ => Ok data) symbol thr) = StrongBuy
            /\ res_rsi (evaluate_stock (fun _ => Ok data) symbol thr) = Some thr.
Proof.
  split.
  - intros yf symbol thr data rsi Hf Hlen Hrsi.
    destruct (reads_exist data Hlen) as (rsi' & pt & py & vt & vy & Hrsi' & H).
    destruct H as (Hpt & Hpy & Hvt & Hvy).
    rewrite Hrsi in Hrsi'. injection Hrsi' as <-.
    rewrite (evaluate_stock_full yf _ thr _ _ _ _ _ _ Hf Hlen Hrsi Hpt Hpy Hvt Hvy).
    split; [reflexivity|]. cbn [res_verdict].
    destruct (F.gt rsi thr); [reflexivity | discriminate].
  - exists near50, (Finite 50), (Finite 50.001).
    split; [simpl; lia|]. repeat split; vm_compute; reflexivity.
Qed.

(** *** Concrete runs *)

Lemma strong_buy_iff_witness :
  (res_verdict (evaluate_stock (fun _ => Ok near50) "AAA" (Finite 50)) = StrongBuy
   <-> F.gt (Finite 50.001) (Finite 50) = true
       /\ F.gt (Finite 100002) (Finite 100001) = true
       /\ F.gt (Finite 2) (Finite 1) = true)
  /\ (res_verdict (evaluate_stock (fun _ => Ok near50) "AAA" (Finite 50)) <> StrongBuy ->
      res_verdict (evaluate_stock (fun _ => Ok near50) "AAA" (Finite 50)) = NotStrongBuy)
  /\ (F.eqb (Finite 50.001) (Finite 50) = true ->
      res_verdict (evaluate_stock (fun _ => Ok near50) "AAA" (Finite 50)) = NotStrongBuy)
  /\ (F.eqb (Finite 100002) (Finite 100001) = true ->
      res_verdict (evaluate_stock (fun _ => Ok near50) "AAA" (Finite 50)) = NotStrongBuy)
  /\ (F.eqb (Finite 2) (Finite 1) = true ->
      res_verdict (evaluate_stock (fun _ => Ok near50) "AAA" (Finite 50)) = NotStrongBuy).
Proof.
  apply (strong_buy_iff (fun _ => Ok near50) "AAA" (Finite 50) near50);
    [reflexivity | simpl; lia | reflexivity | reflexivity | reflexivity
    | reflexivity | reflexivity].
Defined.

Lemma insufficient_data_witness :
  evaluate_stock (fun _ => Ok (take 14 near50)) "AAA" (Finite 50)
  = mkResult "AAA" None None None None SkippedInsufficientData.
Proof.
  apply (insufficient_data (fun _ => Ok (take 14 near50)) "AAA" (Finite 50)
           (take 14 near50)); [reflexivity | simpl; lia].
Defined.

Lemma undefined_rsi_not_strong_buy_witness :
  res_verdict (evaluate_stock (fun _ => Ok flat15) "FLAT" (Finite 50)) = NotStrongBuy
  /\ res_rsi (evaluate_stock (fun _ => Ok flat15) "FLAT" (Finite 50)) = Some NaN.
Proof.
  apply (undefined_rsi_not_strong_buy (fun _ => Ok flat15) "FLAT" (Finite 50)
           flat15); [reflexivity | simpl; lia | reflexivity].
Defined.

Lemma only_Exception_is_folded_witness :
  evaluate_stock_call (fun s => of_outcome (sample_provider s)) "BAD" (Finite 50)
  = Returns (mkResult "BAD" None None None None
               (SkippedFetchError "No data found"))
  /\ main_loop_call interrupted_provider ["AAA"; "BAD"; "CCC"]%string (Finite 50)
     = Exits "KeyboardInterrupt".
Proof.
  split.
  - destruct (only_Exception_is_folded
                (fun s => of_outcome (sample_provider s)) [] "BAD" (Finite 50))
      as (_ & Hfetch & _).
    apply Hfetch. reflexivity.
  - destruct (only_Exception_is_folded interrupted_provider
                ["AAA"; "BAD"; "CCC"]%string "BAD" (Finite 50))
      as (_ & _ & _ & _ & _ & Hends & _).
    apply (Hends ["AAA"%string] "BAD"%string ["CCC"%string]).
    + reflexivity.
    + intros s' Hs'. apply list_elem_of_singleton in Hs' as ->.
      eexists. vm_compute. reflexivity.
    + vm_compute. reflexivity.
Defined.


(** The run above, in full: the failing symbol gets its warning and the
    two others are exported in input order. *)
Example sample_run :
  fst (main_loop sample_provider ["AAA"; "BAD"; "CCC"]%string (Finite 50))
  = [("AAA"%string,
      Analysis (Some (Finite 100002)) (Some (Finite 50)) (Some true) (Some true)
        "Strong Buy");
     ("BAD"%string, Warning "Skipped – error fetching data (No data found)");
     ("CCC"%string,
      Analysis (Some (Finite 100002)) (Some (Finite 50)) (Some true) (Some true)
        "Strong Buy")]
  /\ main_csv sample_provider repr_2dp ["AAA"; "BAD"; "CCC"]%string (Finite 50)
     = Some ("Symbol,Price,RSI" +:+ newline
             +:+ "AAA,100002.0,50.0" +:+ newline
             +:+ "CCC,100002.0,50.0" +:+ newline).
Proof. split; vm_compute; reflexivity. Qed.

(** The export of two given rows, one of them with a comma in its
    symbol. *)
Example sample_export :
  to_csv repr_2dp
    [mkRow "AAA" (Some (Finite 100)) (Some (Finite 60));
     mkRow "B,B" (Some (Finite 50.5)) (Some (Finite 55.25))]
  = "Symbol,Price,RSI" +:+ newline
    +:+ "AAA,100.0,60.0" +:+ newline
    +:+ dquote +:+ "B,B" +:+ dquote +:+ ",50.5,55.25" +:+ newline.
Proof. vm_compute. reflexivity. Qed.

End Evaluate.

(* ===================================================================== *)
(** ** More on [calculate_rsi]: what one window decides *)
(* ===================================================================== *)

(** A strictly decreasing series: every entry is smaller than the one
    before it. *)
Fixpoint decreasing_from (prev : float64) (s : Series) : bool :=
  match s with
  | [] => true
  | x :: r => F.lt x prev && decreasing_from x r
  end.

Definition strictly_decreasing (s : Series) : bool :=
  match s with
  | [] => true
  | x :: r => decreasing_from x r
  end.

(** Fifteen bars, closes falling by one a day. *)
Definition falling15 : DataFrame :=
  frame_of [(15,1);(14,1);(13,1);(12,1);(11,1);(10,1);(9,1);(8,1);(7,1);
            (6,1);(5,1);(4,1);(3,1);(2,1);(1,1)].

(** Fifteen bars: a fall on the second day, then thirteen quiet days and a
    rise on the last. *)
Definition late_rise15 : DataFrame :=
  frame_of [(9,1);(5,1);(5,1);(5,1);(5,1);(5,1);(5,1);(5,1);(5,1);(5,1);
            (5,1);(5,1);(5,1);(5,1);(6,1)].

(** The negative finite values and [-inf]. *)
Inductive neg : float64 -> Prop :=
  | neg_fin q : (q < 0)%Q -> neg (Finite q)
  | neg_inf : neg (Inf true).

Module Windows.
Import FloatFacts SeriesFacts.

Lemma neg_nonpos x : neg x -> nonpos x.
Proof. destruct 1; now constructor. Qed.

Lemma neg_lt0 x : neg x <-> F.lt x (Zero false) = true.
Proof.
  split.
  - destruct 1; simpl; [now apply Qltb_lt | reflexivity].
  - destruct x as [|[]|s|q]; simpl; try discriminate.
    + intros _. constructor.
    + rewrite Qltb_lt. now constructor.
Qed.

Lemma neg_not_gt0 x : neg x -> F.gt x (Zero false) = false.
Proof.
  destruct 1; simpl; [|reflexivity].
  apply not_true_iff_false. rewrite Qltb_lt. intros E.
  apply (Qlt_irrefl 0). eapply Qlt_trans; eassumption.
Qed.

Lemma add_neg_l x y : neg x -> nonpos y -> neg (F.add x y).
Proof.
  intros [p Hp|] [|q Hq|]; simpl; try constructor.
  - rewrite of_Q_neg by assumption. constructor. now apply Qred_neg.
  - assert (p + q < 0)%Q by lra.
    rewrite of_Q_neg by assumption. constructor. now apply Qred_neg.
Qed.

Lemma add_neg_r x y : nonpos x -> neg y -> neg (F.add x y).
Proof.
  intros [|p Hp|] [q Hq|]; simpl; try constructor.
  - rewrite of_Q_neg by assumption. constructor. now apply Qred_neg.
  - assert (p + q < 0)%Q by lra.
    rewrite of_Q_neg by assumption. constructor. now apply Qred_neg.
Qed.

Lemma fold_add_neg_acc s acc :
  neg acc -> Forall nonpos s -> neg (fold_left F.add s acc).
Proof.
  revert acc. induction s as [|x r IH]; intros acc Ha Hs; simpl; [assumption|].
  inversion Hs; subst. apply IH; [now apply add_neg_l | assumption].
Qed.

Lemma fold_add_neg s acc :
  nonpos acc -> Forall nonpos s -> Exists neg s -> neg (fold_left F.add s acc).
Proof.
  revert acc. induction s as [|x r IH]; intros acc Ha Hs He; simpl.
  - inversion He.
  - inversion Hs; subst. inversion He; subst.
    + apply fold_add_neg_acc; [now apply add_neg_r | assumption].
    + apply IH; [now apply add_nonpos | assumption | assumption].
Qed.

Lemma div_neg x q : neg x -> (0 < q)%Q -> neg (F.div x (Finite q)).
Proof.
  intros [p Hp|] Hq.
  - rewrite div_fin_fin by (first [now apply Qis0_pos | now apply Qis0_neg]).
    constructor. apply Qred_neg. now apply Qdiv_neg.
  - simpl. rewrite (Qisneg_pos q Hq). constructor.
Qed.

Lemma opp_neg x : neg x -> pos (F.opp x).
Proof.
  intros [q Hq|]; simpl; [|constructor].
  rewrite Qis0_neg by assumption. constructor. lra.
Qed.

(** No gain and some loss: [rs] is zero and the formula gives 0. *)
Lemma rsi_no_gain l : pos l -> rsi_of_rs (F.div (Zero false) l) = Zero false.
Proof.
  intros [q Hq|]; [|reflexivity].
  unfold F.div, F.is_zero. rewrite (Qis0_pos q Hq). cbn [F.sign].
  rewrite (Qisneg_pos q Hq). reflexivity.
Qed.

(** *** One window *)

Lemma rolling_mean_at_window_zeros w s i :
  (1 <= w)%nat -> (w <= i + 1)%nat ->
  Forall (eq (Zero false)) (window_at w i s) ->
  rolling_mean_at w s i = Zero false.
Proof.
  intros Hw Hi Hwin. destruct (of_nat_pos w Hw) as (q & Eq & Hq).
  rewrite rolling_mean_at_full, Eq by auto using fin_zeros.
  unfold fsum. rewrite fold_add_zeros by assumption.
  unfold F.div, F.is_zero. rewrite (Qis0_pos q Hq). cbn [F.sign].
  now rewrite (Qisneg_pos q Hq).
Qed.

Lemma rolling_mean_at_window_pos w s i :
  (1 <= w)%nat -> (w <= i + 1)%nat -> Forall (nonneg false) s ->
  Forall (fun x => F.is_finite x = true) s ->
  Exists pos (window_at w i s) ->
  pos (rolling_mean_at w s i).
Proof.
  intros Hw Hi Hs Hfin He. destruct (of_nat_pos w Hw) as (q & Eq & Hq).
  rewrite rolling_mean_at_full, Eq by auto using Forall_window.
  apply div_pos; [|assumption].
  apply fold_add_pos; [constructor | now apply Forall_window | assumption].
Qed.

Lemma rolling_mean_at_window_neg w s i :
  (1 <= w)%nat -> (w <= i + 1)%nat -> Forall nonpos s ->
  Forall (fun x => F.is_finite x = true) s ->
  Exists neg (window_at w i s) ->
  neg (rolling_mean_at w s i).
Proof.
  intros Hw Hi Hs Hfin He. destruct (of_nat_pos w Hw) as (q & Eq & Hq).
  rewrite rolling_mean_at_full, Eq by auto using Forall_window.
  apply div_neg; [|assumption].
  apply fold_add_neg; [constructor | now apply Forall_window | assumption].
Qed.

Lemma window_where_gt0 w i s :
  window_at w i (where_gt0 s) = where_gt0 (window_at w i s).
Proof. unfold window_at, where_gt0. now rewrite fmap_take, fmap_drop. Qed.

Lemma window_where_lt0 w i s :
  window_at w i (where_lt0 s) = where_lt0 (window_at w i s).
Proof. unfold window_at, where_lt0. now rewrite fmap_take, fmap_drop. Qed.

(** The average gain over a window without an up-move is [+0.0]. *)
Lemma gain_at_no_up data w i :
  (1 <= w)%nat -> (w <= i + 1)%nat ->
  forallb (fun d => negb (F.gt d (Zero false)))
    (window_at w i (delta_series data)) = true ->
  gain_at data w i = Zero false.
Proof.
  intros Hw Hi H. apply rolling_mean_at_window_zeros; try assumption.
  rewrite window_where_gt0. apply Forall_fmap, Forall_forall. intros d Hd.
  rewrite forallb_forall in H. apply list_elem_of_In, H in Hd.
  unfold compose. now apply negb_true_iff in Hd as ->.
Qed.

(** The average loss over a window without a down-move is [-0.0]. *)
Lemma loss_at_no_down data w i :
  (1 <= w)%nat -> (w <= i + 1)%nat ->
  forallb (fun d => negb (F.lt d (Zero false)))
    (window_at w i (delta_series data)) = true ->
  loss_at data w i = Zero true.
Proof.
  intros Hw Hi H. unfold loss_at.
  rewrite rolling_mean_at_window_zeros; try assumption; [reflexivity|].
  rewrite window_where_lt0. apply Forall_fmap, Forall_forall. intros d Hd.
  rewrite forallb_forall in H. apply list_elem_of_In, H in Hd.
  unfold compose. now apply negb_true_iff in Hd as ->.
Qed.

Lemma gain_at_some_up data w i :
  (1 <= w)%nat -> (w <= i + 1)%nat ->
  Forall (fun x => F.is_finite x = true) (close_col data) ->
  existsb (fun d => F.gt d (Zero false))
    (window_at w i (delta_series data)) = true ->
  pos (gain_at data w i).
Proof.
  intros Hw Hi Hfin H.
  apply rolling_mean_at_window_pos;
    [assumption | assumption | apply where_gt0_nonneg
    | now apply fin_where_gt0 |].
  rewrite window_where_gt0. apply existsb_exists in H as (d & Hd & Hup).
  apply Exists_exists. exists d. split; [|now apply pos_gt0].
  apply list_elem_of_fmap. exists d. rewrite Hup.
  split; [reflexivity | now apply list_elem_of_In].
Qed.

Lemma loss_at_some_down data w i :
  (1 <= w)%nat -> (w <= i + 1)%nat ->
  Forall (fun x => F.is_finite x = true) (close_col data) ->
  existsb (fun d => F.lt d (Zero false))
    (window_at w i (delta_series data)) = true ->
  pos (loss_at data w i).
Proof.
  intros Hw Hi Hfin H. unfold loss_at. apply opp_neg.
  apply rolling_mean_at_window_neg;
    [assumption | assumption | apply where_lt0_nonpos
    | now apply fin_where_lt0 |].
  rewrite window_where_lt0. apply existsb_exists in H as (d & Hd & Hdown).
  apply Exists_exists. exists d. split; [|now apply neg_lt0].
  apply list_elem_of_fmap. exists d. rewrite Hdown.
  split; [reflexivity | now apply list_elem_of_In].
Qed.

(** X1.  The RSI column, and the two averages, are aligned with the frame:
    one entry per bar, whatever the window and the closes. *)
Theorem rsi_column_aligned (data : DataFrame) (w : nat) :
  length (calculate_rsi data w) = length data
  /\ length (gain_series data w) = length data
  /\ length (loss_series data w) = length data.
Proof.
  split; [apply length_calculate_rsi|].
  split; [apply length_gain_series | apply length_loss_series].
Qed.

(** X2.  On whole-number closes and a window of at most [2^20] days, a
    full window of deltas with no down-move and at least one up-move
    gives an RSI of exactly 100, whatever happened before the window. *)
Theorem window_without_loss_rsi_100 (data : DataFrame) (w i : nat) :
  (1 <= w)%nat -> (Z.of_nat w <= 1048576)%Z ->
  (w <= i + 1)%nat -> (i < length data)%nat ->
  forallb whole (close_col data) = true ->
  forallb (fun d => negb (F.lt d (Zero false)))
    (window_at w i (delta_series data)) = true ->
  existsb (fun d => F.gt d (Zero false))
    (window_at w i (delta_series data)) = true ->
  calculate_rsi data w !! i = Some hundred.
Proof.
  intros Hw _ Hi Hlen Hwhole Hno Hsome.
  rewrite lookup_calculate_rsi by assumption.
  rewrite (loss_at_no_down data w i Hw Hi Hno).
  now rewrite (rsi_no_loss _
                 (gain_at_some_up data w i Hw Hi (RSI.whole_fin _ Hwhole) Hsome)).
Qed.

Lemma window_without_loss_rsi_100_witness :
  calculate_rsi late_rise15 13 !! 14%nat = Some hundred.
Proof.
  apply (window_without_loss_rsi_100 late_rise15 13 14);
    [lia | lia | lia | simpl; lia | reflexivity | reflexivity | reflexivity].
Defined.

(** X3.  On whole-number closes and a window of at most [2^20] days, a
    full window of deltas with no up-move and at least one down-move
    gives an RSI of exactly 0. *)
Theorem window_without_gain_rsi_0 (data : DataFrame) (w i : nat) :
  (1 <= w)%nat -> (Z.of_nat w <= 1048576)%Z ->
  (w <= i + 1)%nat -> (i < length data)%nat ->
  forallb whole (close_col data) = true ->
  forallb (fun d => negb (F.gt d (Zero false)))
    (window_at w i (delta_series data)) = true ->
  existsb (fun d => F.lt d (Zero false))
    (window_at w i (delta_series data)) = true ->
  calculate_rsi data w !! i = Some (Zero false).
Proof.
  intros Hw _ Hi Hlen Hwhole Hno Hsome.
  rewrite lookup_calculate_rsi by assumption.
  rewrite (gain_at_no_up data w i Hw Hi Hno).
  now rewrite (rsi_no_gain _
                 (loss_at_some_down data w i Hw Hi (RSI.whole_fin _ Hwhole) Hsome)).
Qed.

Lemma window_without_gain_rsi_0_witness :
  calculate_rsi late_rise15 13 !! 13%nat = Some (Zero false).
Proof.
  apply (window_without_gain_rsi_0 late_rise15 13 13);
    [lia | lia | lia | simpl; lia | reflexivity | reflexivity | reflexivity].
Defined.

(** X4.  A full window of deltas with neither an up-move nor a down-move gives
    an undefined RSI, even when the series moved before the window. *)
Theorem window_without_move_rsi_nan (data : DataFrame) (w i : nat) :
  (1 <= w)%nat -> (w <= i + 1)%nat -> (i < length data)%nat ->
  forallb (fun d => negb (F.gt d (Zero false)) && negb (F.lt d (Zero false)))
    (window_at w i (delta_series data)) = true ->
  calculate_rsi data w !! i = Some NaN.
Proof.
  intros Hw Hi Hlen Hno. rewrite lookup_calculate_rsi by assumption.
  rewrite forallb_forall in Hno.
  rewrite (gain_at_no_up data w i Hw Hi), (loss_at_no_down data w i Hw Hi);
    [reflexivity | |]; apply forallb_forall; intros d Hd;
    apply Hno, andb_true_iff in Hd; tauto.
Qed.

Lemma window_without_move_rsi_nan_witness :
  calculate_rsi late_rise15 12 !! 13%nat = Some NaN.
Proof.
  apply (window_without_move_rsi_nan late_rise15 12 13);
    [lia | lia | simpl; lia | reflexivity].
Defined.

(** *** Strictly decreasing series *)

Lemma lt_sub_neg a b : F.gt b a = true -> neg (F.sub a b).
Proof.
  unfold F.sub.
  destruct b as [|[]|sb|p], a as [|[]|sa|q]; simpl; try discriminate;
    intros H; try constructor.
  - apply Qltb_lt in H. rewrite (of_Q_neg _ H). constructor.
    now apply Qred_neg.
  - destruct (F.Qis0 p); constructor.
  - apply Qltb_lt in H. rewrite (Qis0_pos p H).
    assert (- p < 0)%Q as Hp by lra.
    rewrite (of_Q_neg _ Hp). constructor. now apply Qred_neg.
  - apply Qltb_lt in H. destruct (F.Qis0 p) eqn:E.
    + apply Qis0_eq in E. assert (q < 0)%Q as Hq by lra.
      rewrite (of_Q_neg _ Hq). constructor. now apply Qred_neg.
    + assert (q + - p < 0)%Q as Hq by lra.
      rewrite (of_Q_neg _ Hq). constructor. now apply Qred_neg.
Qed.

Lemma falling_diff_from prev s :
  decreasing_from prev s = true -> Forall neg (diff_from prev s).
Proof.
  revert prev. induction s as [|x r IH]; intros prev H; simpl; [constructor|].
  simpl in H. apply andb_true_iff in H as [Hx Hr].
  constructor; [now apply lt_sub_neg | now apply IH].
Qed.

Lemma falling_no_up s :
  strictly_decreasing s = true ->
  Forall (fun d => negb (F.gt d (Zero false)) = true) (diff s).
Proof.
  intros H. destruct s as [|x r]; [constructor|].
  simpl in *. constructor; [reflexivity|].
  eapply Forall_impl; [now apply falling_diff_from|].
  intros d Hd. cbv beta. now rewrite neg_not_gt0.
Qed.

Lemma falling_down_at s i :
  strictly_decreasing s = true -> (1 <= i)%nat -> (i < length s)%nat ->
  exists d, diff s !! i = Some d /\ F.lt d (Zero false) = true.
Proof.
  intros H Hi Hlen. destruct s as [|x r]; [simpl in Hlen; lia|].
  simpl in H. pose proof (falling_diff_from _ _ H) as Hneg.
  destruct i as [|j]; [lia|]. simpl in Hlen.
  destruct (lookup_lt_is_Some_2 (diff_from x r) j) as [d Hd].
  { rewrite length_diff_from. lia. }
  exists d. split; [exact Hd|].
  apply neg_lt0. exact (Forall_lookup_1 _ _ _ _ Hneg Hd).
Qed.

(** X5.  For a window of at least two days and a strictly decreasing
    series of whole-number closes, at every index where the two averages
    are defined the average gain is zero, the average loss is positive
    and the RSI is exactly 0. *)
Theorem falling_series_rsi_0 (data : DataFrame) (w i : nat) (g l : float64) :
  (2 <= w)%nat ->
  forallb whole (close_col data) = true ->
  strictly_decreasing (close_col data) = true ->
  gain_series data w !! i = Some g ->
  loss_series data w !! i = Some l ->
  g <> NaN ->
  l <> NaN ->
  F.is_zero g = true
  /\ F.gt l (Zero false) = true
  /\ calculate_rsi data w !! i = Some (Zero false).
Proof.
  intros Hw Hwhole Hdown Hg Hl Hgdef Hldef.
  assert (i < length data)%nat as Hi.
  { rewrite <- (length_gain_series data w). apply lookup_lt_is_Some. eauto. }
  rewrite lookup_gain_series in Hg by assumption.
  rewrite lookup_loss_series in Hl by assumption.
  injection Hg as <-. injection Hl as <-.
  destruct (Nat.ltb_spec (i + 1) w) as [Hearly|Hfull].
  { now rewrite gain_at_early in Hgdef. }
  assert (gain_at data w i = Zero false) as Eg.
  { apply gain_at_no_up; try lia. apply forallb_forall. intros d Hd.
    apply list_elem_of_In in Hd.
    pose proof (Forall_window _ w i _ (falling_no_up _ Hdown)) as Hwin.
    rewrite Forall_forall in Hwin. now apply Hwin. }
  assert (pos (loss_at data w i)) as Hpos.
  { apply loss_at_some_down; try lia; [now apply RSI.whole_fin|].
    destruct (falling_down_at (close_col data) i Hdown) as (d & Hd & Hlt);
      [lia | unfold close_col; now rewrite length_fmap |].
    apply existsb_exists. exists d. split; [|assumption].
    apply list_elem_of_In. apply window_holds_last; try lia. exact Hd. }
  rewrite lookup_calculate_rsi by assumption. rewrite Eg.
  split; [reflexivity|]. split; [now apply pos_gt0|].
  now rewrite rsi_no_gain.
Qed.

Lemma falling_series_rsi_0_witness :
  F.is_zero (Zero false) = true
  /\ F.gt (Finite 1) (Zero false) = true
  /\ calculate_rsi falling15 14 !! 14%nat = Some (Zero false).
Proof.
  apply (falling_series_rsi_0 falling15 14 14 (Zero false) (Finite 1));
    [lia | reflexivity | reflexivity | reflexivity | reflexivity
    | discriminate | discriminate].
Defined.

End Windows.

(* ===================================================================== *)
(** ** More on [evaluate_stock]: the shape of its results *)
(* ===================================================================== *)

Module Results.
Import FloatFacts SeriesFacts Evaluate.

Lemma Qle_ltb_or_eqb (a b : Q) :
  (a <= b)%Q -> F.Qltb a b || Qeq_bool a b = true.
Proof.
  intros H. apply Qle_lteq in H as [H|H]; apply orb_true_iff.
  - left. now apply Qltb_lt.
  - right. now apply Qeq_bool_iff.
Qed.

Lemma Qltb_le_trans (a b c : Q) :
  F.Qltb b a = true -> F.Qltb c b || Qeq_bool c b = true -> F.Qltb c a = true.
Proof.
  intros H1 H2. apply Qltb_lt in H1. apply Qltb_lt.
  apply orb_true_iff in H2 as [H2|H2].
  - apply Qltb_lt in H2. eapply Qlt_trans; eassumption.
  - apply Qeq_bool_iff in H2. now rewrite H2.
Qed.

(** [x > t] and [t' <= t] give [x > t']. *)
Lemma gt_le_trans x t t' :
  F.gt x t = true -> F.le t' t = true -> F.gt x t' = true.
Proof.
  unfold F.le.
  destruct x as [|[]|sx|p], t as [|[]|st|q], t' as [|[]|st'|r];
    cbn [F.gt F.eqb F.qval negb andb orb Bool.eqb];
    intros H1 H2; try discriminate; try reflexivity;
    try (eapply Qltb_le_trans; eassumption).
Qed.

Lemma round_not_nan x n : x <> NaN -> F.round x n <> NaN.
Proof.
  destruct x as [| | |q]; try (intros _; discriminate); [congruence|].
  intros _. unfold F.round. cbv zeta.
  now destruct (_ =? 0)%Z.
Qed.

Lemma gt_not_nan x y : F.gt x y = true -> x <> NaN.
Proof. intros H ->. discriminate. Qed.

Lemma round_half_even_floor q : (Qfloor q <= F.round_half_even q)%Z.
Proof.
  unfold F.round_half_even. cbv zeta.
  destruct (_ ?= _)%Q; [destruct (Z.even _)| |]; lia.
Qed.

(** An integer as a float: [+0.0] or a finite value, never NaN or an
    infinity. *)
Lemma of_Z_cases z :
  (z = 0%Z /\ F.of_Z z = Zero false)
  \/ (exists t, F.of_Z z = Finite t /\ (t == inject_Z z)%Q).
Proof.
  unfold F.of_Z, F.of_Q, F.Qis0. cbn [Qnum inject_Z].
  destruct (Z.eqb_spec z 0) as [->|Hz]; [now left|].
  right. eexists. split; [reflexivity | apply Qred_correct].
Qed.

(** Rounding to two decimals never takes a value above an integer to a
    value below it. *)
Lemma round_above_integer x z :
  F.gt x (F.of_Z z) = true -> F.le (F.of_Z z) (F.round x 2) = true.
Proof.
  assert (exists T, F.of_Z z = T /\ (F.qval T == inject_Z z)%Q
                    /\ (T = Zero false \/ exists t, T = Finite t))
    as (T & -> & HT & Hshape).
  { destruct (of_Z_cases z) as [[-> ->]|(t & -> & Ht)].
    - exists (Zero false). repeat split; auto.
    - exists (Finite t). repeat split; eauto. }
  assert (forall y, (y = Zero false \/ y = Zero true \/ exists r, y = Finite r) ->
                    (F.qval T <= F.qval y)%Q -> F.le T y = true) as Hle.
  { intros y Hy Hq. unfold F.le.
    destruct Hshape as [->|[t ->]], Hy as [->|[->|[r ->]]];
      cbn [F.gt F.eqb F.qval] in *; now apply Qle_ltb_or_eqb. }
  destruct x as [|[]|s|q].
  - discriminate.
  - destruct Hshape as [->|[t ->]]; discriminate.
  - intros _. unfold F.le.
    destruct Hshape as [->|[t ->]]; reflexivity.
  - intros H. apply Hle; [destruct s; auto|].
    destruct Hshape as [->|[t ->]]; cbn [F.gt F.qval] in *;
      apply Qltb_lt in H; now apply Qlt_le_weak.
  - intros H.
    assert (inject_Z z < q)%Q as Hzq.
    { rewrite <- HT. destruct Hshape as [->|[t ->]];
        cbn [F.gt F.qval] in *; now apply Qltb_lt. }
    unfold F.round. cbv zeta.
    change (inject_Z (10 ^ Z.of_nat 2)) with 100%Q.
    set (n := F.round_half_even (q * 100)).
    assert (z * 100 <= n)%Z as Hn.
    { etransitivity; [|apply round_half_even_floor].
      rewrite <- (Qfloor_Z (z * 100)). apply Qfloor_resp_le.
      rewrite inject_Z_mult. change (inject_Z 100) with 100%Q. lra. }
    assert (inject_Z z <= inject_Z n / 100)%Q as Hq.
    { apply Qle_shift_div_l; [reflexivity|].
      change 100%Q with (inject_Z 100). rewrite <- inject_Z_mult.
      now rewrite <- Zle_Qle. }
    destruct (Z.eqb_spec n 0) as [E|_].
    + apply Hle; [destruct (F.Qisneg q); auto|].
      rewrite HT. cbn [F.qval]. change 0%Q with (inject_Z 0).
      rewrite <- Zle_Qle. lia.
    + apply Hle; [eauto|]. cbn [F.qval]. now rewrite HT, Qred_correct.
Qed.

Section WithProvider.

Variable yf_download : string -> outcome DataFrame.

(** The three ways [evaluate_stock] returns. *)
Lemma evaluate_cases symbol thr :
  (exists e, yf_download symbol = Raise e
     /\ evaluate_stock yf_download symbol thr
        = mkResult symbol None None None None (SkippedFetchError e))
  \/ (exists data, yf_download symbol = Ok data /\ (length data < 15)%nat
     /\ evaluate_stock yf_download symbol thr
        = mkResult symbol None None None None SkippedInsufficientData)
  \/ (exists data rsi pt py vt vy,
       yf_download symbol = Ok data /\ (15 <= length data)%nat
       /\ last (calculate_rsi data 14) = Some rsi
       /\ last (close_col data) = Some pt
       /\ close_col data !! (length data - 2)%nat = Some py
       /\ last (volume_col data) = Some vt
       /\ volume_col data !! (length data - 2)%nat = Some vy
       /\ evaluate_stock yf_download symbol thr
          = mkResult symbol (Some (F.round pt 2)) (Some (F.round rsi 2))
              (Some (F.gt pt py)) (Some (F.gt vt vy))
              (if F.gt rsi thr && F.gt pt py && F.gt vt vy
               then StrongBuy else NotStrongBuy)).
Proof.
  destruct (yf_download symbol) as [data|e] eqn:Hf.
  - destruct (Nat.ltb_spec (length data) 15) as [Hlen|Hlen].
    + right. left. exists data. repeat split; try assumption.
      now apply (evaluate_stock_short _ _ _ data).
    + right. right.
      destruct (reads_exist data Hlen) as (rsi & pt & py & vt & vy & H).
      destruct H as (Hrsi & Hpt & Hpy & Hvt & Hvy).
      exists data, rsi, pt, py, vt, vy. repeat split; try assumption.
      now apply (evaluate_stock_full _ _ _ data).
  - left. exists e. split; [reflexivity|].
    now apply evaluate_stock_fetch_error.
Qed.

(** X6.  Whatever the provider answers, the result carries the symbol it was
    asked for, and either it is a skip with no price, RSI or flag, or it
    is a verdict with all four present. *)
Theorem result_shape symbol thr :
  res_symbol (evaluate_stock yf_download symbol thr) = symbol
  /\ (((res_verdict (evaluate_stock yf_download symbol thr) = SkippedInsufficientData
        \/ exists e, res_verdict (evaluate_stock yf_download symbol thr)
                     = SkippedFetchError e)
       /\ res_price (evaluate_stock yf_download symbol thr) = None
       /\ res_rsi (evaluate_stock yf_download symbol thr) = None
       /\ res_price_up (evaluate_stock yf_download symbol thr) = None
       /\ res_volume_up (evaluate_stock yf_download symbol thr) = None)
      \/ ((res_verdict (evaluate_stock yf_download symbol thr) = StrongBuy
           \/ res_verdict (evaluate_stock yf_download symbol thr) = NotStrongBuy)
          /\ is_Some (res_price (evaluate_stock yf_download symbol thr))
          /\ is_Some (res_rsi (evaluate_stock yf_download symbol thr))
          /\ is_Some (res_price_up (evaluate_stock yf_download symbol thr))
          /\ is_Some (res_volume_up (evaluate_stock yf_download symbol thr)))).
Proof.
  destruct (evaluate_cases symbol thr)
    as [(e & _ & ->)|[(data & _ & _ & ->)|H]].
  - split; [reflexivity|]. left. cbn. eauto 10.
  - split; [reflexivity|]. left. cbn. eauto 10.
  - destruct H as (data & rsi & pt & py & vt & vy & _ & _ & _ & _ & _ & _ & _ & ->).
    split; [reflexivity|]. right. cbn.
    repeat split; eauto.
    destruct (F.gt rsi thr && F.gt pt py && F.gt vt vy); auto.
Qed.

(** X7.  What the verdict tells about the fetch.  When the provider raises,
    the result is the fetch-error skip with the provider's message; a
    verdict of StrongBuy or NotStrongBuy is only ever given on a frame of
    at least 15 bars that the provider returned; and the
    insufficient-data skip is only ever given when the provider returned
    a frame. *)
Theorem verdict_by_fetch_outcome symbol thr :
  (forall e,
     yf_download symbol = Raise e ->
     evaluate_stock yf_download symbol thr
     = mkResult symbol None None None None (SkippedFetchError e))
  /\ (res_verdict (evaluate_stock yf_download symbol thr) = StrongBuy
      \/ res_verdict (evaluate_stock yf_download symbol thr) = NotStrongBuy ->
      exists data, yf_download symbol = Ok data /\ (15 <= length data)%nat)
  /\ (res_verdict (evaluate_stock yf_download symbol thr) = SkippedInsufficientData ->
      exists data, yf_download symbol = Ok data).
Proof.
  split; [intros e He; now apply evaluate_stock_fetch_error|].
  destruct (evaluate_cases symbol thr)
    as [(e & Hf & ->)|[(data & Hf & Hlen & ->)|H]].
  - cbn. split; [intros [|]; discriminate | discriminate].
  - cbn. split; [intros [|]; discriminate | eauto].
  - destruct H as (data & rsi & pt & py & vt & vy & Hf & Hlen & _ & _ & _ & _ & _ & ->).
    cbn. split; [eauto|].
    destruct (F.gt rsi thr && F.gt pt py && F.gt vt vy); discriminate.
Qed.

(** X8.  A symbol that is a strong buy at one threshold is a strong buy at
    every lower or equal threshold. *)
Theorem lower_threshold_keeps_strong_buy symbol thr thr' :
  res_verdict (evaluate_stock yf_download symbol thr) = StrongBuy ->
  F.le thr' thr = true ->
  res_verdict (evaluate_stock yf_download symbol thr') = StrongBuy.
Proof.
  intros Hbuy Hle.
  destruct (evaluate_cases symbol thr)
    as [(e & _ & E)|[(data & _ & _ & E)|H]];
    [rewrite E in Hbuy; discriminate | rewrite E in Hbuy; discriminate |].
  destruct H as (data & rsi & pt & py & vt & vy & Hf & Hlen & H1 & H2 & H3 & H4 & H5 & E).
  rewrite E in Hbuy. cbn in Hbuy.
  rewrite (evaluate_stock_full _ _ thr' data rsi pt py vt vy) by assumption.
  cbn.
  destruct (F.gt rsi thr) eqn:G; [|discriminate].
  now rewrite (gt_le_trans _ _ _ G Hle).
Qed.

(** X9.  The threshold decides between StrongBuy and NotStrongBuy and nothing
    else: symbol, price, RSI and the two flags do not depend on it, nor
    does a skip. *)
Theorem threshold_only_changes_verdict symbol thr thr' :
  res_symbol (evaluate_stock yf_download symbol thr)
  = res_symbol (evaluate_stock yf_download symbol thr')
  /\ res_price (evaluate_stock yf_download symbol thr)
     = res_price (evaluate_stock yf_download symbol thr')
  /\ res_rsi (evaluate_stock yf_download symbol thr)
     = res_rsi (evaluate_stock yf_download symbol thr')
  /\ res_price_up (evaluate_stock yf_download symbol thr)
     = res_price_up (evaluate_stock yf_download symbol thr')
  /\ res_volume_up (evaluate_stock yf_download symbol thr)
     = res_volume_up (evaluate_stock yf_download symbol thr')
  /\ (res_verdict (evaluate_stock yf_download symbol thr)
      = res_verdict (evaluate_stock yf_download symbol thr')
      \/ ((res_verdict (evaluate_stock yf_download symbol thr) = StrongBuy
           \/ res_verdict (evaluate_stock yf_download symbol thr) = NotStrongBuy)
          /\ (res_verdict (evaluate_stock yf_download symbol thr') = StrongBuy
              \/ res_verdict (evaluate_stock yf_download symbol thr') = NotStrongBuy))).
Proof.
  destruct (evaluate_cases symbol thr)
    as [(e & Hf & ->)|[(data & Hf & Hlen & ->)|H]].
  - rewrite (evaluate_stock_fetch_error _ _ thr' e Hf). cbn. auto 10.
  - rewrite (evaluate_stock_short _ _ thr' data Hf Hlen). cbn. auto 10.
  - destruct H as (data & rsi & pt & py & vt & vy & Hf & Hlen & H1 & H2 & H3 & H4 & H5 & ->).
    rewrite (evaluate_stock_full _ _ thr' data rsi pt py vt vy) by assumption.
    cbn. repeat split; try reflexivity. right.
    destruct (F.gt rsi thr && F.gt pt py && F.gt vt vy),
      (F.gt rsi thr' && F.gt pt py && F.gt vt vy); auto.
Qed.

(** X10.  A strong-buy result is complete: both flags are true, and the price
    and the RSI are present and are not NaN. *)
Theorem strong_buy_is_complete symbol thr :
  res_verdict (evaluate_stock yf_download symbol thr) = StrongBuy ->
  res_price_up (evaluate_stock yf_download symbol thr) = Some true
  /\ res_volume_up (evaluate_stock yf_download symbol thr) = Some true
  /\ exists price rsi,
       res_price (evaluate_stock yf_download symbol thr) = Some price
       /\ res_rsi (evaluate_stock yf_download symbol thr) = Some rsi
       /\ price <> NaN /\ rsi <> NaN.
Proof.
  intros Hbuy.
  destruct (evaluate_cases symbol thr)
    as [(e & _ & E)|[(data & _ & _ & E)|H]];
    [rewrite E in Hbuy; discriminate | rewrite E in Hbuy; discriminate |].
  destruct H as (data & rsi & pt & py & vt & vy & _ & _ & _ & _ & _ & _ & _ & E).
  rewrite E in *. cbn in *.
  destruct (F.gt rsi thr) eqn:G1; [|discriminate].
  destruct (F.gt pt py) eqn:G2; [|discriminate].
  destruct (F.gt vt vy) eqn:G3; [|discriminate].
  repeat split. exists (F.round pt 2), (F.round rsi 2).
  repeat split; apply round_not_nan; eapply gt_not_nan; eassumption.
Qed.

(** X11.  With an integer threshold, as the slider gives, the RSI returned for a
    strong buy is never below the threshold, although it has been
    rounded. *)
Theorem strong_buy_rsi_reaches_integer_threshold symbol (z : Z) :
  res_verdict (evaluate_stock yf_download symbol (F.of_Z z)) = StrongBuy ->
  exists rsi,
    res_rsi (evaluate_stock yf_download symbol (F.of_Z z)) = Some rsi
    /\ F.le (F.of_Z z) rsi = true.
Proof.
  intros Hbuy.
  destruct (evaluate_cases symbol (F.of_Z z))
    as [(e & _ & E)|[(data & _ & _ & E)|H]];
    [rewrite E in Hbuy; discriminate | rewrite E in Hbuy; discriminate |].
  destruct H as (data & rsi & pt & py & vt & vy & _ & _ & _ & _ & _ & _ & _ & E).
  rewrite E in *. cbn [res_verdict res_rsi] in *.
  destruct (F.gt rsi (F.of_Z z)) eqn:G1; [|discriminate].
  exists (F.round rsi 2). split; [reflexivity|].
  now apply round_above_integer.
Qed.

End WithProvider.

Lemma lower_threshold_keeps_strong_buy_witness :
  res_verdict (evaluate_stock (fun _ => Ok near50) "AAA" (Finite 40)) = StrongBuy.
Proof.
  apply (lower_threshold_keeps_strong_buy (fun _ => Ok near50) "AAA"
           (Finite 50) (Finite 40)); reflexivity.
Defined.

Lemma strong_buy_is_complete_witness :
  res_price_up (evaluate_stock (fun _ => Ok near50) "AAA" (Finite 50)) = Some true
  /\ res_volume_up (evaluate_stock (fun _ => Ok near50) "AAA" (Finite 50)) = Some true
  /\ exists price rsi,
       res_price (evaluate_stock (fun _ => Ok near50) "AAA" (Finite 50)) = Some price
       /\ res_rsi (evaluate_stock (fun _ => Ok near50) "AAA" (Finite 50)) = Some rsi
       /\ price <> NaN /\ rsi <> NaN.
Proof.
  apply (strong_buy_is_complete (fun _ => Ok near50) "AAA" (Finite 50)).
  reflexivity.
Defined.

Lemma strong_buy_rsi_reaches_integer_threshold_witness :
  exists rsi,
    res_rsi (evaluate_stock (fun _ => Ok near50) "AAA" (F.of_Z 50)) = Some rsi
    /\ F.le (F.of_Z 50) rsi = true.
Proof.
  apply (strong_buy_rsi_reaches_integer_threshold (fun _ => Ok near50) "AAA" 50).
  reflexivity.
Defined.

End Results.

(* ===================================================================== *)
(** ** [main]: loading the symbols and reporting *)
(* ===================================================================== *)

(** [json.load(f)["symbols"]]: opening or parsing the file may raise, and
    so does the subscript when the object has no key [symbols] (the text
    of that [KeyError] is the quoted key).  The parsed object is taken as
    a dictionary from keys to lists of strings. *)
Definition load_symbols (parsed : outcome (gmap string (list string)))
  : outcome (list string) :=
  do d <- parsed ;
  match d !! "symbols"%string with
  | Some symbols => Ok symbols
  | None => Raise "'symbols'"
  end.

(** What a run of [main] shows: the error of the loading step, or the
    number of symbols announced, the expanders, the count of strong buys
    and the contents of the download when there is one. *)
Inductive MainOutput : Type :=
  | LoadFailed (error : string)
  | Completed (evaluating : nat) (panels : list (string * Panel))
      (found : nat) (csv_contents : option string).

Definition main (yf_download : string -> outcome DataFrame)
    (float_repr : float64 -> string)
    (rsi_threshold : Z) (parsed : outcome (gmap string (list string)))
  : MainOutput :=
  match load_symbols parsed with
  | Raise e => LoadFailed ("Error loading symbols.json: " +:+ e)
  | Ok symbols =>
      let '(panels, strong_buy_data) :=
        main_loop yf_download symbols (F.of_Z rsi_threshold) in
      Completed (length symbols) panels (length strong_buy_data)
        (match strong_buy_data with
         | [] => None
         | _ => Some (to_csv float_repr strong_buy_data)
         end)
  end.

(** A symbols file with three tickers and an unrelated key. *)
Definition sample_file : gmap string (list string) :=
  <["symbols" := ["AAA"; "BAD"; "CCC"]]> (<["note" := ["x"]]> ∅).

Module Run.
Import FloatFacts SeriesFacts Evaluate Results.

Section WithProvider.

Variable yf_download : string -> outcome DataFrame.
Variable float_repr : float64 -> string.

(** X12.  Evaluating two lists of symbols one after the other gives the panels
    and the strong-buy rows of the first followed by those of the
    second: no symbol changes the outcome of another. *)
Theorem main_loop_app (symbols1 symbols2 : list string) (thr : float64) :
  main_loop yf_download (symbols1 ++ symbols2) thr
  = (fst (main_loop yf_download symbols1 thr)
       ++ fst (main_loop yf_download symbols2 thr),
     snd (main_loop yf_download symbols1 thr)
       ++ snd (main_loop yf_download symbols2 thr)).
Proof.
  rewrite !main_loop_spec. cbn [fst snd].
  now rewrite !fmap_app, List.filter_app, fmap_app.
Qed.

(** X13.  With the integer threshold of the slider, every row collected for
    export names one of the input symbols and holds a price and an RSI
    that are present, are not NaN, and an RSI not below the threshold. *)
Theorem exported_rows_are_complete (symbols : list string) (z : Z) :
  Forall (fun r =>
            Symbol r ∈ symbols
            /\ exists price rsi,
                 Price r = Some price /\ RSI r = Some rsi
                 /\ price <> NaN /\ rsi <> NaN
                 /\ F.le (F.of_Z z) rsi = true)
    (snd (main_loop yf_download symbols (F.of_Z z))).
Proof.
  rewrite main_loop_spec. cbn [snd]. apply Forall_fmap, Forall_forall.
  intros r Hr. apply list_elem_of_In, filter_In in Hr as [Hin Hbuy].
  apply list_elem_of_In, list_elem_of_fmap in Hin as (s & -> & Hs).
  unfold compose, is_strong_buy, row_of in *.
  destruct (evaluate_cases yf_download s (F.of_Z z))
    as [(e & _ & E)|[(data & _ & _ & E)|H]];
    [rewrite E in Hbuy; discriminate | rewrite E in Hbuy; discriminate |].
  destruct H as (data & rsi & pt & py & vt & vy & _ & _ & _ & _ & _ & _ & _ & E).
  rewrite E in *. cbn in *.
  destruct (F.gt rsi (F.of_Z z)) eqn:G1; [|discriminate].
  destruct (F.gt pt py) eqn:G2; [|discriminate].
  split; [assumption|].
  exists (F.round pt 2), (F.round rsi 2).
  repeat split; try (apply round_not_nan; eapply gt_not_nan; eassumption).
  now apply round_above_integer.
Qed.

(** X15.  When the file gives a list of symbols, [main] announces their number,
    shows one expander per symbol in the order of the list, counts the
    strong buys, and offers the CSV exactly when the count is not zero. *)
Theorem completed_run_summary (z : Z) (d : gmap string (list string))
    (symbols : list string) :
  d !! "symbols"%string = Some symbols ->
  exists panels found csv,
    main yf_download float_repr z (Ok d)
    = Completed (length symbols) panels found csv
    /\ panels.*1 = symbols
    /\ found = length (List.filter is_strong_buy
                         ((fun s => evaluate_stock yf_download s (F.of_Z z))
                            <$> symbols))
    /\ (found <= length symbols)%nat
    /\ (csv = None <-> found = 0%nat).
Proof.
  intros Hd. unfold main, load_symbols. cbn [bind]. rewrite Hd.
  rewrite main_loop_spec.
  set (results := (fun s => evaluate_stock yf_download s (F.of_Z z)) <$> symbols).
  eexists _, _, _. split; [reflexivity|].
  split.
  { rewrite <- list_fmap_compose. apply list_fmap_id. }
  split; [apply length_fmap|].
  split.
  { rewrite length_fmap. etransitivity; [apply List.filter_length_le|].
    unfold results. now rewrite length_fmap. }
  destruct (List.filter is_strong_buy results) as [|r rest];
    cbn; split; congruence.
Qed.

End WithProvider.

Lemma completed_run_summary_witness :
  exists panels found csv,
    main sample_provider plain_repr 50 (Ok sample_file)
    = Completed (length ["AAA"; "BAD"; "CCC"]%string) panels found csv
    /\ panels.*1 = ["AAA"; "BAD"; "CCC"]%string
    /\ found = length (List.filter is_strong_buy
                         ((fun s => evaluate_stock sample_provider s (F.of_Z 50))
                            <$> ["AAA"; "BAD"; "CCC"]%string))
    /\ (found <= length ["AAA"; "BAD"; "CCC"]%string)%nat
    /\ (csv = None <-> found = 0%nat).
Proof.
  apply (completed_run_summary sample_provider plain_repr 50 sample_file).
  reflexivity.
Defined.

End Run.
